(** * Tenable VM provider: API client and data-source lookups

    A shallow embedding of [client.go] and of the [Read] methods of the
    role, group and user data sources, followed by the properties the
    specification states about them.

    Conventions of the embedding:
    - a Go [string] is a sequence of bytes: [string] of the Standard Library;
    - a Go [int] (64 bits) is a [Z]; the only places where the range matters
      are the conversions [int(float64)] and [strconv.Atoi], written out below;
    - a [float64] is a [spec_float] (sign, mantissa, exponent);
    - [map[string]interface{}] is a [gmap string value];
    - [(T, error)] results are [result T];
    - the HTTP round trips go through an explicit world: the state of the
      remote server and the log of the requests sent so far. *)

From Stdlib Require Import ZArith NArith Ascii Floats.SpecFloat Lia.
From stdpp Require Import base strings gmap list pretty.

Set Warnings "-register-all".

(** ** Go values *)

(** An [error] is represented by its message ([err.Error()]). *)
Definition error : Type := string.

Inductive result (A : Type) : Type :=
  | Ok (a : A)
  | Err (e : error).
Arguments Ok {A} a.
Arguments Err {A} e.

(** The dynamic values an [interface{}] holds in this program: what
    [encoding/json] produces (nil, bool, float64, string, slices and maps)
    and the [int]s the client puts into payloads. *)
Inductive value : Type :=
  | VNil
  | VBool (b : bool)
  | VFloat64 (f : spec_float)
  | VInt (n : Z)
  | VString (s : string)
  | VSlice (l : list value)
  | VMap (m : gmap string value).

Definition minInt : Z := (- 2 ^ 63)%Z.
Definition maxInt : Z := (2 ^ 63 - 1)%Z.
Definition inInt (n : Z) : bool := ((minInt <=? n) && (n <=? maxInt))%Z.

(** Truncation toward zero of a finite float, [None] for infinities and NaN. *)
Definition truncFloat (f : spec_float) : option Z :=
  match f with
  | S754_zero _ => Some 0%Z
  | S754_finite s m e =>
      let mag := if (0 <=? e)%Z then (Z.pos m * 2 ^ e)%Z
                 else (Z.pos m / 2 ^ (- e))%Z in
      Some (if s then (- mag)%Z else mag)
  | S754_infinity _ | S754_nan => None
  end.

(** The conversion [int(f)].  When the truncated value does not fit an [int]
    the Go specification leaves the result to the implementation; the value
    below is the one of amd64 (the "integer indefinite" value). *)
Definition int_of_float64 (f : spec_float) : Z :=
  match truncFloat f with
  | Some z => if inInt z then z else minInt
  | None => minInt
  end.

(** The conversion [float64(n)]: round to nearest even in binary64. *)
Definition float64_of_int (n : Z) : spec_float :=
  binary_normalize 53 1024 n 0 false.

(** [f] is a floating-point representation of the integer [n]: the exact
    value [(-1)^s * m * 2^e] of [f] is [n]. *)
Definition float_represents (f : spec_float) (n : Z) : Prop :=
  match f with
  | S754_zero _ => n = 0%Z
  | S754_finite s m e =>
      ((if s then Z.neg m else Z.pos m) * 2 ^ Z.max e 0 = n * 2 ^ Z.max (- e) 0)%Z
  | S754_infinity _ | S754_nan => False
  end.

(** [json.Encoder.Encode] fails on the values JSON cannot express; among
    the values above these are the infinities and NaN. *)
Fixpoint jsonEncodable (v : value) : bool :=
  match v with
  | VFloat64 (S754_infinity _) | VFloat64 S754_nan => false
  | VSlice l => forallb jsonEncodable l
  | VMap m => map_fold (λ _ v' acc, jsonEncodable v' && acc) true m
  | _ => true
  end.

(** ** Package [strings] and [strconv] *)

Definition byte_of (c : ascii) : N := N_of_ascii c.

(** [strings.TrimLeft(s, cutset)] and [strings.TrimRight(s, cutset)] for a
    cutset of one ASCII byte (the only use here is the cutset ["/"]). *)
Fixpoint trimLeftByte (s : string) (c : ascii) : string :=
  match s with
  | String a s' => if Ascii.eqb a c then trimLeftByte s' c else s
  | EmptyString => EmptyString
  end.

Fixpoint trimRightByte (s : string) (c : ascii) : string :=
  match s with
  | String a s' =>
      match trimRightByte s' c with
      | EmptyString => if Ascii.eqb a c then EmptyString else String a EmptyString
      | r => String a r
      end
  | EmptyString => EmptyString
  end.

(** One step of the ASCII loop of [strings.EqualFold]: the two bytes are
    equal, or the smaller is an upper-case letter and the larger is the
    same letter in lower case. *)
Definition foldEqByte (sr tr : ascii) : bool :=
  if Ascii.eqb tr sr then true
  else
    let lo := N.min (byte_of sr) (byte_of tr) in
    let hi := N.max (byte_of sr) (byte_of tr) in
    (65 <=? lo)%N && (lo <=? 90)%N && (hi =? lo + 32)%N.

(** The Unicode branch of [strings.EqualFold] (taken from the first byte
    that is not ASCII) walks the runes with the tables of
    [unicode.SimpleFold]; those tables are the library's. *)
Class UnicodeFold := equalFoldUnicode : string → string → bool.

Fixpoint EqualFold `{UnicodeFold} (s t : string) : bool :=
  match s, t with
  | String sr s', String tr t' =>
      if (128 <=? N.lor (byte_of sr) (byte_of tr))%N then equalFoldUnicode s t
      else if foldEqByte sr tr then EqualFold s' t'
      else false
  | EmptyString, EmptyString => true
  | _, _ => false
  end.




(** [strconv.Itoa] and the verb [%d]. *)
Definition Itoa (n : Z) : string := pretty n.

(** Decimal digits of [strconv.Atoi]. *)
Fixpoint parseDigits (s : string) (acc : Z) : option Z :=
  match s with
  | EmptyString => Some acc
  | String c s' =>
      let d := byte_of c in
      if (48 <=? d)%N && (d <=? 57)%N
      then parseDigits s' (acc * 10 + Z.of_N (d - 48))%Z
      else None
  end.

(** [strconv.Atoi]: an optional sign, then at least one decimal digit, and
    a value that fits an [int].  The callers only test [err != nil], so a
    failure is [None]. *)
Definition Atoi (s : string) : option Z :=
  let '(neg, ds) :=
    match s with
    | String "-" r => (true, r)
    | String "+" r => (false, r)
    | _ => (false, s)
    end in
  match ds with
  | EmptyString => None
  | _ =>
      match parseDigits ds 0 with
      | Some n => let v := if neg then (- n)%Z else n in
                  if inInt v then Some v else None
      | None => None
      end
  end.

(** ** Package [net/http] *)

(** [httpguts.IsTokenRune]: the bytes allowed in a method and in a header
    field name. *)
Definition isTokenByte (c : ascii) : bool :=
  let n := byte_of c in
  ((48 <=? n) && (n <=? 57) || (65 <=? n) && (n <=? 90) || (97 <=? n) && (n <=? 122)
   || bool_decide (n ∈ [33; 35; 36; 37; 38; 39; 42; 43; 45; 46; 94; 95; 96; 124; 126]))%N.

Fixpoint allBytes (p : ascii → bool) (s : string) : bool :=
  match s with
  | String c s' => p c && allBytes p s'
  | EmptyString => true
  end.

(** [textproto.CanonicalMIMEHeaderKey]: a key made of token bytes gets an
    upper-case letter at the start and after each hyphen and lower-case
    letters elsewhere; any other key is left as it is. *)
Fixpoint canonicalize (upper : bool) (s : string) : string :=
  match s with
  | String c s' =>
      let n := byte_of c in
      let c' :=
        if upper && (97 <=? n)%N && (n <=? 122)%N then ascii_of_N (n - 32)
        else if negb upper && (65 <=? n)%N && (n <=? 90)%N then ascii_of_N (n + 32)
        else c in
      String c' (canonicalize (Ascii.eqb c' "-") s')
  | EmptyString => EmptyString
  end.

Definition CanonicalMIMEHeaderKey (s : string) : string :=
  if allBytes isTokenByte s then canonicalize true s else s.

(** [http.Header] is a [map[string][]string]. *)
Definition Header_Set (h : gmap string (list string)) (key val : string)
  : gmap string (list string) :=
  <[CanonicalMIMEHeaderKey key := [val]]> h.

Definition Header_Get (h : gmap string (list string)) (key : string) : string :=
  match h !! CanonicalMIMEHeaderKey key with
  | Some (v :: _) => v
  | _ => ""
  end.

(** A request.  [Body] keeps the payload that [json.Encoder] serialised
    (the bytes on the wire are its JSON text). *)
Record Request : Type := {
  Method : string;
  URL : string;
  Header : gmap string (list string);
  Body : option (gmap string value)
}.

Record Response : Type := {
  StatusCode : Z;
  Status : string;           (* e.g. "404 Not Found" *)
  RespBody : string
}.

Definition validMethod (method : string) : bool :=
  negb (String.eqb method "") && allBytes isTokenByte method.

(** What makes [url.Parse] fail on a URL that starts with a scheme and a
    plain host name, as every URL below does: a control byte before the
    fragment, or a [%] that is not followed by two hexadecimal digits in
    the path or in the fragment (the query is not checked). *)
Definition isCTL (c : ascii) : bool :=
  let n := byte_of c in (n <? 32)%N || (n =? 127)%N.

Definition ishex (c : ascii) : bool :=
  let n := byte_of c in
  ((48 <=? n) && (n <=? 57) || (97 <=? n) && (n <=? 102) || (65 <=? n) && (n <=? 70))%N.

Fixpoint validEscapes (s : string) : bool :=
  match s with
  | String "%" s' =>
      match s' with
      | String a (String b _) => ishex a && ishex b && validEscapes s'
      | _ => false
      end
  | String _ s' => validEscapes s'
  | EmptyString => true
  end.

(** [strings.Cut(s, sep)] for a separator of one byte: the text before
    the first [sep] and the text after it. *)
Fixpoint cutByte (s : string) (sep : ascii) : string * string :=
  match s with
  | String c s' =>
      if Ascii.eqb c sep then (EmptyString, s')
      else let '(a, b) := cutByte s' sep in (String c a, b)
  | EmptyString => (EmptyString, EmptyString)
  end.

Definition urlParse_ok (rawURL : string) : bool :=
  let '(u, frag) := cutByte rawURL "#" in
  let '(path, _) := cutByte u "?" in
  allBytes (λ c, negb (isCTL c)) u && validEscapes path && validEscapes frag.

(** [http.NewRequest]: an empty method means GET; the method must be a
    token and the URL must parse.  The new request has no header yet. *)
Definition NewRequest (method url : string) (body : option (gmap string value))
  : result Request :=
  let method := if String.eqb method "" then "GET" else method in
  if negb (validMethod method) then Err ("net/http: invalid method " +:+ method)
  else if negb (urlParse_ok url) then Err ("parse " +:+ url +:+ ": invalid URL")
  else Ok {| Method := method; URL := url; Header := ∅; Body := body |}.

(** ** The client ([client.go]) *)

Definition baseURL : string := "https://cloud.tenable.com".

Record Client : Type := {
  AccessKey : string;
  SecretKey : string
}.

(** [newRequest] constructs the request for a path and an optional JSON
    body and sets the content type and the authentication header. *)
Definition newRequest (c : Client) (method path : string)
    (body : option (gmap string value)) : result Request :=
  let url := trimRightByte baseURL "/" +:+ "/" +:+ trimLeftByte path "/" in
  let encoded :=
    match body with
    | Some b => if jsonEncodable (VMap b) then Ok tt
                else Err "json: unsupported value"
    | None => Ok tt
    end in
  match encoded with
  | Err e => Err e
  | Ok _ =>
      match NewRequest method url body with
      | Err e => Err e
      | Ok req =>
          let h := Header_Set (Header req) "Content-Type" "application/json" in
          let h := Header_Set h "X-ApiKeys"
                     ("accessKey=" +:+ AccessKey c +:+ "; secretKey=" +:+ SecretKey c +:+ ";") in
          Ok {| Method := Method req; URL := URL req; Header := h; Body := Body req |}
      end
  end.

(** *** The world the client talks to *)

(** [c.Http.Do]: the transport answers a request with a response or fails
    (a network error), and the remote side may change state. *)
Class RoundTripper (Server : Type) :=
  RoundTrip : Request → Server → Server * result Response.

(** The two shapes the client decodes a body into. *)
Inductive Shape : Type :=
  | MapShape          (* map[string]interface{} *)
  | SliceShape.       (* []map[string]interface{} *)

Definition shapeT (t : Shape) : Type :=
  match t with
  | MapShape => gmap string value
  | SliceShape => list (gmap string value)
  end.

(** [json.NewDecoder(body).Decode(target)] for a target of shape [t]: the
    decoder is the library's.  Numbers decode to [float64]. *)
Class JSONDecoder := json_Decode : ∀ t : Shape, string → result (shapeT t).

Record World (Server : Type) : Type := {
  server : Server;
  sent : list Request          (* the requests executed so far, oldest first *)
}.
Arguments server {Server} w.
Arguments sent {Server} w.

(** State and error monad of the client's methods. *)
Definition M (Server A : Type) : Type := World Server → World Server * result A.

Definition ret {Server A} (a : A) : M Server A := λ w, (w, Ok a).
Definition fail {Server A} (e : error) : M Server A := λ w, (w, Err e).
Definition bind {Server A B} (m : M Server A) (k : A → M Server B) : M Server B :=
  λ w, match m w with
       | (w', Ok a) => k a w'
       | (w', Err e) => (w', Err e)
       end.
Definition lift {Server A} (r : result A) : M Server A := λ w, (w, r).

Notation "'call' x := m 'in' k" := (bind m (λ x, k))
  (at level 10, x name, m at level 100, k at level 200, only parsing).

Definition targetT (target : option Shape) : Type :=
  match target with
  | Some t => shapeT t
  | None => unit
  end.

Section Client.
Context {Server : Type} `{!RoundTripper Server} `{!JSONDecoder}.

Definition Http_Do (req : Request) : M Server Response :=
  λ w, let '(srv, r) := RoundTrip req (server w) in
       ({| server := srv; sent := sent w ++ [req] |}, r).

(** [do] executes the request and decodes the JSON response into the
    target if there is one. *)
Definition do (req : Request) (target : option Shape) : M Server (targetT target) :=
  call resp := Http_Do req in
  if ((StatusCode resp <? 200) || (300 <=? StatusCode resp))%Z then
    fail ("API error: " +:+ Status resp +:+ ": " +:+ RespBody resp)
  else
    match target with
    | None => ret (tt : targetT None)
    | Some t => lift (json_Decode t (RespBody resp) : result (targetT (Some t)))
    end.

(** *** Records and their decoding *)

Record User : Type := {
  User_ID : Z;
  User_UUID : string;
  User_Username : string;
  User_Name : string;
  User_Email : string;
  User_Permissions : Z;
  User_Enabled : bool;
  User_Raw : gmap string value
}.

Record Role : Type := {
  Role_ID : Z;
  Role_UUID : string;
  Role_Name : string;
  Role_Description : string;
  Role_Raw : gmap string value
}.

Record Group : Type := {
  Group_ID : Z;
  Group_UUID : string;
  Group_Name : string;
  Group_Description : string;
  Group_Raw : gmap string value
}.

(** The type switch on a numeric field: a [float64] is converted, an
    [int] is taken as it is, anything else (or no key) leaves zero. *)
Definition intField (m : gmap string value) (key : string) : Z :=
  match m !! key with
  | Some (VFloat64 f) => int_of_float64 f
  | Some (VInt n) => n
  | _ => 0%Z
  end.

(** The type assertion [v.(string)] on a field. *)
Definition stringField (m : gmap string value) (key : string) : string :=
  match m !! key with
  | Some (VString s) => s
  | _ => ""
  end.

(** The type assertion [v.(bool)] on a field. *)
Definition boolField (m : gmap string value) (key : string) : bool :=
  match m !! key with
  | Some (VBool b) => b
  | _ => false
  end.

(** The decoding at the end of [GetUser] and in the loop of [ListUsers]. *)
Definition decodeUser (m : gmap string value) : User :=
  {| User_ID := intField m "id";
     User_UUID := stringField m "uuid";
     User_Username := stringField m "username";
     User_Name := stringField m "name";
     User_Email := stringField m "email";
     User_Permissions := intField m "permissions";
     User_Enabled := boolField m "enabled";
     User_Raw := m |}.

(** The decoding of [CreateUser]: as above, but a response without the
    key ["enabled"] gives an enabled user. *)
Definition decodeCreatedUser (resp : gmap string value) : User :=
  {| User_ID := intField resp "id";
     User_UUID := stringField resp "uuid";
     User_Username := stringField resp "username";
     User_Name := stringField resp "name";
     User_Email := stringField resp "email";
     User_Permissions := intField resp "permissions";
     User_Enabled :=
       match resp !! "enabled" with
       | Some (VBool b) => b
       | Some _ => false
       | None => true
       end;
     User_Raw := resp |}.

Definition decodeRole (m : gmap string value) : Role :=
  {| Role_ID := intField m "id";
     Role_UUID := stringField m "uuid";
     Role_Name := stringField m "name";
     Role_Description := stringField m "description";
     Role_Raw := m |}.

Definition decodeGroup (m : gmap string value) : Group :=
  {| Group_ID := intField m "id";
     Group_UUID := stringField m "uuid";
     Group_Name := stringField m "name";
     Group_Description := stringField m "description";
     Group_Raw := m |}.

Definition setEnabled (u : User) (enabled : bool) : User :=
  {| User_ID := User_ID u; User_UUID := User_UUID u;
     User_Username := User_Username u; User_Name := User_Name u;
     User_Email := User_Email u; User_Permissions := User_Permissions u;
     User_Enabled := enabled; User_Raw := User_Raw u |}.

(** *** The methods *)

(** [SetUserEnabled] toggles the enabled status on the dedicated endpoint. *)
Definition SetUserEnabled (c : Client) (id : Z) (enabled : bool) : M Server unit :=
  let payload : gmap string value := {[ "enabled" := VBool enabled ]} in
  call req := lift (newRequest c "PUT" ("users/" +:+ Itoa id +:+ "/enabled") (Some payload)) in
  do req None.

Definition CreateUser_payload (username password : string) (permissions : Z)
    (name email accountType : string) : gmap string value :=
  let payload : gmap string value :=
    <["username" := VString username]>
      (<["password" := VString password]>
         (<["permissions" := VInt permissions]>
            {[ "type" := VString accountType ]})) in
  let payload := if String.eqb name "" then payload
                 else <["name" := VString name]> payload in
  let payload := if String.eqb email "" then payload
                 else <["email" := VString email]> payload in
  payload.

Definition CreateUser (c : Client) (username password : string) (permissions : Z)
    (name email accountType : string) (enabled : bool) : M Server User :=
  let payload := CreateUser_payload username password permissions name email accountType in
  call req := lift (newRequest c "POST" "users" (Some payload)) in
  call resp := do req (Some MapShape) in
  let user := decodeCreatedUser resp in
  if negb (User_ID user =? 0)%Z && negb (eqb (User_Enabled user) enabled) then
    call _ := SetUserEnabled c (User_ID user) enabled in
    ret (setEnabled user enabled)
  else ret user.

Definition GetUser (c : Client) (id : Z) : M Server User :=
  call req := lift (newRequest c "GET" ("users/" +:+ Itoa id) None) in
  call resp := do req (Some MapShape) in
  ret (decodeUser resp).

Definition ListUsers (c : Client) : M Server (list User) :=
  call req := lift (newRequest c "GET" "users" None) in
  call resp := do req (Some SliceShape) in
  ret (decodeUser <$> (resp : list (gmap string value))).

Definition ListRoles (c : Client) : M Server (list Role) :=
  call req := lift (newRequest c "GET" "roles" None) in
  call resp := do req (Some SliceShape) in
  ret (decodeRole <$> (resp : list (gmap string value))).

Definition ListGroups (c : Client) : M Server (list Group) :=
  call req := lift (newRequest c "GET" "groups" None) in
  call resp := do req (Some SliceShape) in
  ret (decodeGroup <$> (resp : list (gmap string value))).

(** The payload of [UpdateUser]: the current values, overridden by the
    arguments that are not nil. *)
Definition UpdateUser_payload (current : User) (permissions : option Z)
    (name email : option string) (enabled : option bool) : gmap string value :=
  let payload : gmap string value := ∅ in
  let payload := <["permissions" := VInt (User_Permissions current)]> payload in
  let payload := <["enabled" := VBool (User_Enabled current)]> payload in
  let payload := <["email" := VString (User_Email current)]> payload in
  let payload := <["name" := VString (User_Name current)]> payload in
  let payload := match permissions with
                 | Some p => <["permissions" := VInt p]> payload
                 | None => payload end in
  let payload := match enabled with
                 | Some b => <["enabled" := VBool b]> payload
                 | None => payload end in
  let payload := match email with
                 | Some s => <["email" := VString s]> payload
                 | None => payload end in
  let payload := match name with
                 | Some s => <["name" := VString s]> payload
                 | None => payload end in
  payload.

Definition UpdateUser (c : Client) (id : Z) (permissions : option Z)
    (name email : option string) (enabled : option bool) : M Server User :=
  call current := GetUser c id in
  let payload := UpdateUser_payload current permissions name email enabled in
  call req := lift (newRequest c "PUT" ("users/" +:+ Itoa id) (Some payload)) in
  call _ := do req (Some MapShape) in
  GetUser c id.

Definition DeleteUser (c : Client) (id : Z) : M Server unit :=
  call req := lift (newRequest c "DELETE" ("users/" +:+ Itoa id) None) in
  do req None.
End Client.

(** ** The data sources

    [Read] is modelled from the point where the configuration has been read
    into the model ([req.Config.Get]) up to the state it sets; reading the
    configuration, writing the state and logging belong to the plugin
    framework and add nothing to the lookup. *)

(** [types.String] of the plugin framework: null, unknown or a value. *)
Inductive types_String : Type :=
  | StringNull
  | StringUnknown
  | StringValue (s : string).

Definition IsNull (v : types_String) : bool :=
  match v with StringNull => true | _ => false end.
Definition IsUnknown (v : types_String) : bool :=
  match v with StringUnknown => true | _ => false end.
Definition ValueString (v : types_String) : string :=
  match v with StringValue s => s | _ => "" end.

(** A selector is used when it is neither null nor unknown nor empty. *)
Definition isSet (v : types_String) : bool :=
  negb (IsNull v) && negb (IsUnknown v) && negb (String.eqb (ValueString v) "").

Inductive Diagnostic : Type :=
  | ErrorDiag (summary detail : string)
  | AttributeErrorDiag (attribute summary detail : string).

(** What [Read] leaves in its response: the diagnostics and the state, if
    it was set. *)
Record ReadResponse (model : Type) : Type := {
  Diagnostics : list Diagnostic;
  State : option model
}.
Arguments Diagnostics {model} r.
Arguments State {model} r.

Definition addError {model} (d : Diagnostic) : ReadResponse model :=
  {| Diagnostics := [d]; State := None |}.
Definition setState {model} (s : model) : ReadResponse model :=
  {| Diagnostics := []; State := Some s |}.
Definition untouched {model} : ReadResponse model :=
  {| Diagnostics := []; State := None |}.

Record roleDataSourceModel : Type := {
  roleModel_ID : types_String;
  roleModel_Name : types_String;
  roleModel_UUID : types_String;
  roleModel_Description : types_String
}.

Record groupDataSourceModel : Type := {
  groupModel_ID : types_String;
  groupModel_Name : types_String;
  groupModel_UUID : types_String;
  groupModel_Description : types_String
}.

Record userDataSourceModel : Type := {
  userModel_ID : types_String;
  userModel_Username : types_String;
  userModel_Name : types_String;
  userModel_Email : types_String;
  userModel_Permissions : Z;
  userModel_Enabled : bool
}.

Definition optionalString (s : string) : types_String :=
  if String.eqb s "" then StringNull else StringValue s.

Section DataSources.
Context {Server : Type} `{!RoundTripper Server} `{!JSONDecoder} `{!UnicodeFold}.

Definition roleState (role : Role) : roleDataSourceModel :=
  {| roleModel_ID := StringValue (Itoa (Role_ID role));
     roleModel_Name := StringValue (Role_Name role);
     roleModel_UUID := StringValue (Role_UUID role);
     roleModel_Description := optionalString (Role_Description role) |}.

(** [roleDataSource.Read]: [d] is the configured client, if any. *)
Definition roleDataSource_Read (d : option Client) (config : roleDataSourceModel)
    (w : World Server) : World Server * ReadResponse roleDataSourceModel :=
  match d with
  | None => (w, untouched)
  | Some c =>
      if isSet (roleModel_ID config) then
        let idStr := ValueString (roleModel_ID config) in
        match Atoi idStr with
        | None => (w, addError (AttributeErrorDiag "id" "Invalid Role ID"
                                  "The id attribute must be a numeric string."))
        | Some id =>
            match ListRoles c w with
            | (w', Err e) => (w', addError (ErrorDiag "Error listing Tenable VM roles" e))
            | (w', Ok roles) =>
                match find (λ r, Role_ID r =? id)%Z roles with
                | None => (w', addError (ErrorDiag "Role Not Found"
                             ("No Tenable VM role was found with id " +:+ idStr +:+ ".")))
                | Some role => (w', setState (roleState role))
                end
            end
        end
      else if isSet (roleModel_Name config) then
        let name := ValueString (roleModel_Name config) in
        match ListRoles c w with
        | (w', Err e) => (w', addError (ErrorDiag "Error listing Tenable VM roles" e))
        | (w', Ok roles) =>
            match find (λ r, EqualFold (Role_Name r) name) roles with
            | None => (w', addError (ErrorDiag "Role Not Found"
                         ("No Tenable VM role was found with name " +:+ name +:+ ".")))
            | Some role => (w', setState (roleState role))
            end
        end
      else
        (w, addError (ErrorDiag "Missing Search Parameter"
           "Either the id or name attribute must be set to look up a Tenable VM role."))
  end.

Definition groupState (group : Group) : groupDataSourceModel :=
  {| groupModel_ID := StringValue (Itoa (Group_ID group));
     groupModel_Name := StringValue (Group_Name group);
     groupModel_UUID := StringValue (Group_UUID group);
     groupModel_Description := optionalString (Group_Description group) |}.

(** [groupDataSource.Read]. *)
Definition groupDataSource_Read (d : option Client) (config : groupDataSourceModel)
    (w : World Server) : World Server * ReadResponse groupDataSourceModel :=
  match d with
  | None => (w, untouched)
  | Some c =>
      if isSet (groupModel_ID config) then
        let idStr := ValueString (groupModel_ID config) in
        match Atoi idStr with
        | None => (w, addError (AttributeErrorDiag "id" "Invalid Group ID"
                                  "The id attribute must be a numeric string."))
        | Some id =>
            match ListGroups c w with
            | (w', Err e) => (w', addError (ErrorDiag "Error listing Tenable VM groups" e))
            | (w', Ok groups) =>
                match find (λ g, Group_ID g =? id)%Z groups with
                | None => (w', addError (ErrorDiag "Group Not Found"
                             ("No Tenable VM group was found with id " +:+ idStr +:+ ".")))
                | Some group => (w', setState (groupState group))
                end
            end
        end
      else if isSet (groupModel_Name config) then
        let name := ValueString (groupModel_Name config) in
        match ListGroups c w with
        | (w', Err e) => (w', addError (ErrorDiag "Error listing Tenable VM groups" e))
        | (w', Ok groups) =>
            match find (λ g, EqualFold (Group_Name g) name) groups with
            | None => (w', addError (ErrorDiag "Group Not Found"
                         ("No Tenable VM group was found with name " +:+ name +:+ ".")))
            | Some group => (w', setState (groupState group))
            end
        end
      else
        (w, addError (ErrorDiag "Missing Search Parameter"
           "Either the id or name attribute must be set to look up a Tenable VM group."))
  end.

Definition userState (user : User) : userDataSourceModel :=
  {| userModel_ID := StringValue (Itoa (User_ID user));
     userModel_Username := StringValue (User_Username user);
     userModel_Name := optionalString (User_Name user);
     userModel_Email := optionalString (User_Email user);
     userModel_Permissions := User_Permissions user;
     userModel_Enabled := User_Enabled user |}.

(** [userDataSource.Read]: by id through [GetUser], by username through
    [ListUsers] and a comparison of the usernames with [==]. *)
Definition userDataSource_Read (c : Client) (config : userDataSourceModel)
    (w : World Server) : World Server * ReadResponse userDataSourceModel :=
  if isSet (userModel_ID config) then
    let idStr := ValueString (userModel_ID config) in
    match Atoi idStr with
    | None => (w, addError (AttributeErrorDiag "id" "Invalid ID"
                              "The id attribute must be a numeric string."))
    | Some id =>
        match GetUser c id w with
        | (w', Err e) => (w', addError (ErrorDiag "Error retrieving Tenable VM user" e))
        | (w', Ok user) => (w', setState (userState user))
        end
    end
  else if isSet (userModel_Username config) then
    let username := ValueString (userModel_Username config) in
    match ListUsers c w with
    | (w', Err e) => (w', addError (ErrorDiag "Error listing Tenable VM users" e))
    | (w', Ok users) =>
        match find (λ u, String.eqb (User_Username u) username) users with
        | None => (w', addError (ErrorDiag "User Not Found"
                     ("No Tenable VM user was found with username " +:+ username +:+ ".")))
        | Some user => (w', setState (userState user))
        end
    end
  else
    (w, addError (ErrorDiag "Missing Search Parameter"
       "Either the id or username attribute must be set to look up a Tenable VM user.")).
End DataSources.

(** ** The list data sources ([rolesDataSource], [groupsDataSource]) *)

Record roleModel : Type := {
  roleItem_ID : types_String;
  roleItem_UUID : types_String;
  roleItem_Name : types_String;
  roleItem_Description : types_String
}.

Record rolesDataSourceModel : Type := { Roles : list roleModel }.

Record groupModel : Type := {
  groupItem_ID : types_String;
  groupItem_UUID : types_String;
  groupItem_Name : types_String;
  groupItem_Description : types_String
}.

Record groupsDataSourceModel : Type := { Groups : list groupModel }.

Section ListDataSources.
Context {Server : Type} `{!RoundTripper Server} `{!JSONDecoder}.

(** The body of the loop of [rolesDataSource.Read]. *)
Definition roleItem (r : Role) : roleModel :=
  {| roleItem_ID := StringValue (Itoa (Role_ID r));
     roleItem_UUID := StringValue (Role_UUID r);
     roleItem_Name := StringValue (Role_Name r);
     roleItem_Description := optionalString (Role_Description r) |}.

(** [rolesDataSource.Read]: every role of [ListRoles], in its order. *)
Definition rolesDataSource_Read (d : option Client) (w : World Server)
  : World Server * ReadResponse rolesDataSourceModel :=
  match d with
  | None => (w, untouched)
  | Some c =>
      match ListRoles c w with
      | (w', Err e) => (w', addError (ErrorDiag "Error listing Tenable VM roles" e))
      | (w', Ok roles) => (w', setState {| Roles := roleItem <$> roles |})
      end
  end.

Definition groupItem (g : Group) : groupModel :=
  {| groupItem_ID := StringValue (Itoa (Group_ID g));
     groupItem_UUID := StringValue (Group_UUID g);
     groupItem_Name := StringValue (Group_Name g);
     groupItem_Description := optionalString (Group_Description g) |}.

(** [groupsDataSource.Read]. *)
Definition groupsDataSource_Read (d : option Client) (w : World Server)
  : World Server * ReadResponse groupsDataSourceModel :=
  match d with
  | None => (w, untouched)
  | Some c =>
      match ListGroups c w with
      | (w', Err e) => (w', addError (ErrorDiag "Error listing Tenable VM groups" e))
      | (w', Ok groups) => (w', setState {| Groups := groupItem <$> groups |})
      end
  end.
End ListDataSources.

(** ** The provider ([provider.go]) *)

Record tenableProviderModel : Type := {
  config_AccessKey : types_String;
  config_SecretKey : types_String
}.

(** What [Configure] leaves in its response: the diagnostics and the client
    handed to the resources and to the data sources. *)
Record ConfigureResponse : Type := {
  ConfigureDiagnostics : list Diagnostic;
  ResourceData : option Client;
  DataSourceData : option Client
}.

Definition unknownAccessKey : Diagnostic :=
  AttributeErrorDiag "access_key" "Unknown Tenable API Access Key"
    "The provider cannot create the Tenable API client because there is an unknown value for the access_key. Either set the value directly in the configuration, or use the TENABLE_ACCESS_KEY environment variable.".

Definition unknownSecretKey : Diagnostic :=
  AttributeErrorDiag "secret_key" "Unknown Tenable API Secret Key"
    "The provider cannot create the Tenable API client because there is an unknown value for the secret_key. Either set the value directly in the configuration, or use the TENABLE_SECRET_KEY environment variable.".

Definition missingAccessKey : Diagnostic :=
  AttributeErrorDiag "access_key" "Missing Tenable API access key"
    "An access_key must be provided either in the configuration or via the TENABLE_ACCESS_KEY environment variable.".

Definition missingSecretKey : Diagnostic :=
  AttributeErrorDiag "secret_key" "Missing Tenable API secret key"
    "A secret_key must be provided either in the configuration or via the TENABLE_SECRET_KEY environment variable.".

(** [tenablevmProvider.Configure], from the configuration read into the
    model; [getenv] is [os.Getenv].  Every diagnostic it adds is an error,
    so [HasError] is the test that the list is not empty. *)
Definition Configure (getenv : string → string) (config : tenableProviderModel)
  : ConfigureResponse :=
  let diags : list Diagnostic := [] in
  let diags := if IsUnknown (config_AccessKey config)
               then diags ++ [unknownAccessKey] else diags in
  let diags := if IsUnknown (config_SecretKey config)
               then diags ++ [unknownSecretKey] else diags in
  match diags with
  | _ :: _ => {| ConfigureDiagnostics := diags; ResourceData := None; DataSourceData := None |}
  | [] =>
      let accessKey := getenv "TENABLE_ACCESS_KEY" in
      let secretKey := getenv "TENABLE_SECRET_KEY" in
      let accessKey := if negb (IsNull (config_AccessKey config))
                       then ValueString (config_AccessKey config) else accessKey in
      let secretKey := if negb (IsNull (config_SecretKey config))
                       then ValueString (config_SecretKey config) else secretKey in
      let diags := if String.eqb accessKey "" then diags ++ [missingAccessKey] else diags in
      let diags := if String.eqb secretKey "" then diags ++ [missingSecretKey] else diags in
      match diags with
      | _ :: _ => {| ConfigureDiagnostics := diags; ResourceData := None;
                     DataSourceData := None |}
      | [] =>
          let apiClient := {| AccessKey := accessKey; SecretKey := secretKey |} in
          {| ConfigureDiagnostics := [];
             ResourceData := Some apiClient;
             DataSourceData := Some apiClient |}
      end
  end.

(** ** The user resource ([resource_user.go]) *)

(** [types.Int64] and [types.Bool] of the plugin framework. *)
Inductive types_Int64 : Type :=
  | Int64Null
  | Int64Unknown
  | Int64Value (n : Z).

Definition ValueInt64 (v : types_Int64) : Z :=
  match v with Int64Value n => n | _ => 0%Z end.

Inductive types_Bool : Type :=
  | BoolNull
  | BoolUnknown
  | BoolValue (b : bool).

Definition BoolIsNull (v : types_Bool) : bool :=
  match v with BoolNull => true | _ => false end.
Definition BoolIsUnknown (v : types_Bool) : bool :=
  match v with BoolUnknown => true | _ => false end.
Definition ValueBool (v : types_Bool) : bool :=
  match v with BoolValue b => b | _ => false end.

Record userResourceModel : Type := {
  resource_ID : types_String;
  resource_Username : types_String;
  resource_Password : types_String;
  resource_Permissions : types_Int64;
  resource_Name : types_String;
  resource_Email : types_String;
  resource_AccountType : types_String;
  resource_Enabled : types_Bool
}.

(** The diagnostics of the resource: errors and, in [Read], a warning. *)
Inductive ResourceDiagnostic : Type :=
  | AddError (summary detail : string)
  | AddWarning (summary detail : string).

Definition isError (d : ResourceDiagnostic) : bool :=
  match d with AddError _ _ => true | AddWarning _ _ => false end.

(** What a method of the resource does to the state in its response. *)
Inductive StateChange : Type :=
  | StateUntouched
  | StateSet (state : userResourceModel)
  | StateRemoved.

Record ResourceResponse : Type := {
  ResourceDiagnostics : list ResourceDiagnostic;
  ResourceState : StateChange
}.

Definition HasError (r : ResourceResponse) : bool :=
  existsb isError (ResourceDiagnostics r).

(** A value that is neither null nor unknown. *)
Definition known (v : types_String) : bool := negb (IsNull v) && negb (IsUnknown v).

Section UserResource.
Context {Server : Type} `{!RoundTripper Server} `{!JSONDecoder}.

(** [userResource.Create], from the plan read into the model. *)
Definition userResource_Create (c : Client) (plan : userResourceModel)
    (w : World Server) : World Server * ResourceResponse :=
  let username := ValueString (resource_Username plan) in
  let password := if known (resource_Password plan)
                  then ValueString (resource_Password plan) else "" in
  let permissions := ValueInt64 (resource_Permissions plan) in
  let name := if known (resource_Name plan)
              then ValueString (resource_Name plan) else "" in
  let email := if known (resource_Email plan)
               then ValueString (resource_Email plan) else "" in
  let accountType := if known (resource_AccountType plan)
                     then ValueString (resource_AccountType plan) else "local" in
  let enabled := if negb (BoolIsNull (resource_Enabled plan))
                    && negb (BoolIsUnknown (resource_Enabled plan))
                 then ValueBool (resource_Enabled plan) else true in
  match CreateUser c username password permissions name email accountType enabled w with
  | (w', Err e) =>
      (w', {| ResourceDiagnostics := [AddError "Error creating Tenable VM user" e];
              ResourceState := StateUntouched |})
  | (w', Ok user) =>
      let state :=
        {| resource_ID := StringValue (Itoa (User_ID user));
           resource_Username := StringValue (User_Username user);
           resource_Password := StringNull;
           resource_Permissions := Int64Value (User_Permissions user);
           resource_Name := optionalString (User_Name user);
           resource_Email := optionalString (User_Email user);
           resource_AccountType :=
             if known (resource_AccountType plan)
             then StringValue (ValueString (resource_AccountType plan))
             else StringValue accountType;
           resource_Enabled := BoolValue (User_Enabled user) |} in
      (w', {| ResourceDiagnostics := []; ResourceState := StateSet state |})
  end.

(** [userResource.Read], from the prior state read into the model. *)
Definition userResource_Read (c : Client) (state : userResourceModel)
    (w : World Server) : World Server * ResourceResponse :=
  let idStr := ValueString (resource_ID state) in
  match Atoi idStr with
  | None =>
      (w, {| ResourceDiagnostics :=
               [AddError "Invalid User ID" ("Expected numeric ID but got: " +:+ idStr)];
             ResourceState := StateUntouched |})
  | Some id =>
      match GetUser c id w with
      | (w', Err e) =>
          (w', {| ResourceDiagnostics :=
                    [AddWarning "Tenable VM user not found"
                       ("Removing tenablevm_user resource with ID " +:+ idStr
                        +:+ " from state due to read error: " +:+ e)];
                  ResourceState := StateRemoved |})
      | (w', Ok user) =>
          let state' :=
            {| resource_ID := resource_ID state;
               resource_Username := StringValue (User_Username user);
               resource_Password := StringNull;
               resource_Permissions := Int64Value (User_Permissions user);
               resource_Name := optionalString (User_Name user);
               resource_Email := optionalString (User_Email user);
               resource_AccountType := resource_AccountType state;
               resource_Enabled := BoolValue (User_Enabled user) |} in
          (w', {| ResourceDiagnostics := []; ResourceState := StateSet state' |})
      end
  end.

(** The comparison of an optional text of the plan with the state, a null
    value counting as the empty text: the new text if it differs. *)
Definition changedText (planValue stateValue : types_String) : option string :=
  if negb (IsUnknown planValue) then
    let planText := if negb (IsNull planValue) then ValueString planValue else "" in
    let stateText := if negb (IsNull stateValue) then ValueString stateValue else "" in
    if negb (String.eqb planText stateText) then Some planText else None
  else None.

(** [userResource.Update], from the plan and the prior state. *)
Definition userResource_Update (c : Client) (plan state : userResourceModel)
    (w : World Server) : World Server * ResourceResponse :=
  match Atoi (ValueString (resource_ID state)) with
  | None =>
      (w, {| ResourceDiagnostics :=
               [AddError "Invalid User ID"
                  ("Expected numeric ID but got: " +:+ ValueString (resource_ID state))];
             ResourceState := StateUntouched |})
  | Some id =>
      let perms :=
        if negb (ValueInt64 (resource_Permissions plan)
                 =? ValueInt64 (resource_Permissions state))%Z
        then Some (ValueInt64 (resource_Permissions plan)) else None in
      let name := changedText (resource_Name plan) (resource_Name state) in
      let email := changedText (resource_Email plan) (resource_Email state) in
      let enabled :=
        if negb (BoolIsUnknown (resource_Enabled plan))
           && negb (eqb (ValueBool (resource_Enabled plan))
                        (ValueBool (resource_Enabled state)))
        then Some (ValueBool (resource_Enabled plan)) else None in
      match perms, name, email, enabled with
      | None, None, None, None =>
          (w, {| ResourceDiagnostics := []; ResourceState := StateUntouched |})
      | _, _, _, _ =>
          match UpdateUser c id perms name email enabled w with
          | (w1, Err e) =>
              (w1, {| ResourceDiagnostics := [AddError "Error updating Tenable VM user" e];
                      ResourceState := StateUntouched |})
          | (w1, Ok _) =>
              match GetUser c id w1 with
              | (w2, Err e) =>
                  (w2, {| ResourceDiagnostics :=
                            [AddError "Error reading Tenable VM user after update" e];
                          ResourceState := StateUntouched |})
              | (w2, Ok updatedUser) =>
                  let state' :=
                    {| resource_ID := resource_ID state;
                       resource_Username := StringValue (User_Username updatedUser);
                       resource_Password := StringNull;
                       resource_Permissions := Int64Value (User_Permissions updatedUser);
                       resource_Name := optionalString (User_Name updatedUser);
                       resource_Email := optionalString (User_Email updatedUser);
                       resource_AccountType := resource_AccountType state;
                       resource_Enabled := BoolValue (User_Enabled updatedUser) |} in
                  (w2, {| ResourceDiagnostics := []; ResourceState := StateSet state' |})
              end
          end
      end
  end.

(** [userResource.Delete], from the prior state. *)
Definition userResource_Delete (c : Client) (state : userResourceModel)
    (w : World Server) : World Server * ResourceResponse :=
  match Atoi (ValueString (resource_ID state)) with
  | None =>
      (w, {| ResourceDiagnostics :=
               [AddError "Invalid User ID"
                  ("Expected numeric ID but got: " +:+ ValueString (resource_ID state))];
             ResourceState := StateUntouched |})
  | Some id =>
      match DeleteUser c id w with
      | (w', Err e) =>
          (w', {| ResourceDiagnostics := [AddError "Error deleting Tenable VM user" e];
                  ResourceState := StateUntouched |})
      | (w', Ok _) => (w', {| ResourceDiagnostics := []; ResourceState := StateRemoved |})
      end
  end.
End UserResource.

(** ** Test servers

    The repository's tests run the client against an [httptest] server that
    writes [json.NewEncoder(w).Encode(sample)].  The module below plays that
    part: a scripted transport that answers the requests in turn, sample
    values with their JSON text, and a decoder that knows these samples. *)
Module Fixture.

(** The transport answers the i-th request with the i-th entry of the
    script; when the script is over the connection fails. *)
Definition Script : Type := list (result Response).

#[export] Instance scripted : RoundTripper Script :=
  λ _ script,
    match script with
    | r :: rest => (rest, r)
    | [] => ([], Err "connection refused")
    end.

Definition respond (code : Z) (status body : string) : result Response :=
  Ok {| StatusCode := code; Status := status; RespBody := body |}.

Definition fresh (script : Script) : World Script :=
  {| server := script; sent := [] |}.

Definition quote (s : string) : string :=
  String (ascii_of_N 34) s +:+ String (ascii_of_N 34) EmptyString.

Fixpoint joinWith (sep : string) (l : list string) : string :=
  match l with
  | [] => EmptyString
  | [x] => x
  | x :: rest => x +:+ sep +:+ joinWith sep rest
  end.

(** JSON text of a sample (samples hold no float and need no escape). *)
Fixpoint encodeSample (v : value) : string :=
  match v with
  | VNil => "null"
  | VBool true => "true"
  | VBool false => "false"
  | VInt n => Itoa n
  | VFloat64 f => Itoa (int_of_float64 f)
  | VString s => quote s
  | VSlice l => "[" +:+ joinWith "," (encodeSample <$> l) +:+ "]"
  | VMap m =>
      "{" +:+ joinWith ","
                (map_fold (λ k v' acc, (quote k +:+ ":" +:+ encodeSample v') :: acc) [] m)
          +:+ "}"
  end.

(** What the decoder makes of a sample: every number is a [float64]. *)
Fixpoint decoded (v : value) : value :=
  match v with
  | VInt n => VFloat64 (float64_of_int n)
  | VSlice l => VSlice (decoded <$> l)
  | VMap m => VMap (decoded <$> m)
  | _ => v
  end.

Definition decodedMap (v : value) : gmap string value :=
  match decoded v with
  | VMap m => m
  | _ => ∅
  end.

Definition asMap (v : value) : option (gmap string value) :=
  match v with
  | VMap m => Some m
  | VNil => Some ∅
  | _ => None
  end.

Fixpoint asMaps (l : list value) : option (list (gmap string value)) :=
  match l with
  | [] => Some []
  | v :: rest =>
      match asMap v, asMaps rest with
      | Some m, Some ms => Some (m :: ms)
      | _, _ => None
      end
  end.

Definition decodeWith (samples : list value) : JSONDecoder :=
  λ t body,
    match find (λ v, String.eqb (encodeSample v) body) samples with
    | None => Err "invalid character looking for beginning of value"
    | Some v =>
        match t return result (shapeT t) with
        | MapShape =>
            match asMap (decoded v) with
            | Some m => Ok m
            | None => Err "json: cannot unmarshal into Go value of type map[string]interface {}"
            end
        | SliceShape =>
            match decoded v with
            | VNil => Ok []
            | VSlice l =>
                match asMaps l with
                | Some ms => Ok ms
                | None => Err "json: cannot unmarshal into Go value of type map[string]interface {}"
                end
            | _ => Err "json: cannot unmarshal into Go value of type []map[string]interface {}"
            end
        end
    end.

(** The samples of the tests and of the specification's scenarios. *)
Definition alice : value :=
  VMap (<["id" := VInt 1]> (<["uuid" := VString "uuid-1"]>
       (<["username" := VString "alice"]> (<["name" := VString "Alice"]>
       (<["email" := VString "a@x.com"]> (<["permissions" := VInt 16]>
       {[ "enabled" := VBool true ]})))))).

Definition alice32 : value :=
  VMap (<["id" := VInt 1]> (<["uuid" := VString "uuid-1"]>
       (<["username" := VString "alice"]> (<["name" := VString "Alice"]>
       (<["email" := VString "a@x.com"]> (<["permissions" := VInt 32]>
       {[ "enabled" := VBool true ]})))))).

Definition created : value :=
  VMap (<["id" := VInt 7]> (<["username" := VString "carol"]>
       {[ "enabled" := VBool true ]})).

Definition createdNoEnabled : value :=
  VMap (<["id" := VInt 7]> {[ "username" := VString "carol" ]}).

Definition createdNoID : value :=
  VMap (<["username" := VString "carol"]> {[ "enabled" := VBool true ]}).

Definition userList : value :=
  VSlice [ VMap (<["id" := VInt 1]> {[ "username" := VString "admins" ]});
           VMap (<["id" := VInt 2]> {[ "username" := VString "bob" ]}) ].

Definition roleList : value :=
  VSlice [ VMap (<["id" := VInt 1]> (<["uuid" := VString "role-uuid1"]>
                {[ "name" := VString "Reader" ]}));
           VMap (<["id" := VInt 2]> (<["uuid" := VString "role-uuid2"]>
                {[ "name" := VString "admins" ]})) ].

Definition groupList : value :=
  VSlice [ VMap (<["id" := VInt 10]> (<["uuid" := VString "group-uuid1"]>
                {[ "name" := VString "Developers" ]}));
           VMap (<["id" := VInt 20]> (<["uuid" := VString "group-uuid2"]>
                {[ "name" := VString "admins" ]})) ].

Definition emptyObject : value := VMap ∅.

#[export] Instance sampleDecoder : JSONDecoder :=
  decodeWith [alice; alice32; created; createdNoEnabled; createdNoID;
              userList; roleList; groupList; emptyObject].

(** No sample name leaves ASCII; beyond it only equal texts are matched. *)
#[export] Instance asciiOnly : UnicodeFold := String.eqb.

Definition testClient : Client := {| AccessKey := "access"; SecretKey := "secret" |}.

(** A server that answers the list request with two roles, Reader (id 1)
    and admins (id 2), and one that answers with the users admins and bob. *)
Definition rolesWorld : World Script :=
  fresh [respond 200 "200 OK" (encodeSample roleList)].

Definition usersWorld : World Script :=
  fresh [respond 200 "200 OK" (encodeSample userList)].
End Fixture.
Import Fixture.

(** ** Scenarios of the resource and of the provider *)
Module Scenario.

(** The maps the decoder makes of a sample array. *)
Definition decodedMaps (v : value) : list (gmap string value) :=
  match decoded v with
  | VSlice l => decodedMap <$> l
  | _ => []
  end.

Definition ok (sample : value) : result Response :=
  respond 200 "200 OK" (encodeSample sample).

Definition okResponse (sample : value) : Response :=
  {| StatusCode := 200; Status := "200 OK"; RespBody := encodeSample sample |}.

Definition notFound : Response :=
  {| StatusCode := 404; Status := "404 Not Found"; RespBody := "gone" |}.

(** A plan for the user carol, disabled, with the optional attributes left
    null. *)
Definition carolPlan : userResourceModel :=
  {| resource_ID := StringUnknown;
     resource_Username := StringValue "carol";
     resource_Password := StringValue "pw";
     resource_Permissions := Int64Value 16;
     resource_Name := StringNull;
     resource_Email := StringNull;
     resource_AccountType := StringNull;
     resource_Enabled := BoolValue false |}.

(** The state Create makes of the sample answer [created] (which gives no
    permissions). *)
Definition carolState : userResourceModel :=
  {| resource_ID := StringValue "7";
     resource_Username := StringValue "carol";
     resource_Password := StringNull;
     resource_Permissions := Int64Value 0;
     resource_Name := StringNull;
     resource_Email := StringNull;
     resource_AccountType := StringValue "local";
     resource_Enabled := BoolValue false |}.

(** A state of user 1 that is out of date, and what Read makes of it when
    the server answers with the sample [alice]. *)
Definition staleState : userResourceModel :=
  {| resource_ID := StringValue "1";
     resource_Username := StringValue "al";
     resource_Password := StringValue "kept-by-mistake";
     resource_Permissions := Int64Value 64;
     resource_Name := StringNull;
     resource_Email := StringNull;
     resource_AccountType := StringValue "local";
     resource_Enabled := BoolValue false |}.

Definition aliceState (permissions : Z) : userResourceModel :=
  {| resource_ID := StringValue "1";
     resource_Username := StringValue "alice";
     resource_Password := StringNull;
     resource_Permissions := Int64Value permissions;
     resource_Name := StringValue "Alice";
     resource_Email := StringValue "a@x.com";
     resource_AccountType := StringValue "local";
     resource_Enabled := BoolValue true |}.

(** A state without an id, as an import with an empty id leaves it. *)
Definition noIdState : userResourceModel :=
  {| resource_ID := StringNull;
     resource_Username := StringValue "carol";
     resource_Password := StringNull;
     resource_Permissions := Int64Value 16;
     resource_Name := StringNull;
     resource_Email := StringNull;
     resource_AccountType := StringValue "local";
     resource_Enabled := BoolValue true |}.

(** An environment with the access key only. *)
Definition accessOnly (variable : string) : string :=
  if String.eqb variable "TENABLE_ACCESS_KEY" then "envaccess" else "".
End Scenario.
Import Scenario.

(** ** Vocabulary of the statements *)

(** [part] occurs in [msg]. *)
Definition contains (msg part : string) : Prop :=
  ∃ pre post : string, msg = pre +:+ part +:+ post.

(** The status codes 200 to 299. *)
Definition is2xx (code : Z) : bool := ((200 <=? code) && (code <? 300))%Z.

(** Bytes that raise no question in a URL: neither a control byte nor one
    of the delimiters [#], [?] and [%]. *)
Definition urlSafeByte (c : ascii) : bool :=
  negb (isCTL c) && negb (Ascii.eqb c "#") && negb (Ascii.eqb c "?")
  && negb (Ascii.eqb c "%").

(** The value of the authentication header of client [c]. *)
Definition apiKeys (c : Client) : string :=
  "accessKey=" +:+ AccessKey c +:+ "; secretKey=" +:+ SecretKey c +:+ ";".

(** The header of every request of client [c], as [http.Header] stores it. *)
Definition clientHeader (c : Client) : gmap string (list string) :=
  <["X-Apikeys" := [apiKeys c]]> {[ "Content-Type" := ["application/json"] ]}.

(** The request that [newRequest] builds when it succeeds. *)
Definition requestOf (c : Client) (method path : string)
    (body : option (gmap string value)) : Request :=
  {| Method := method;
     URL := baseURL +:+ "/" +:+ path;
     Header := clientHeader c;
     Body := body |}.

(** The POST of a create call. *)
Definition createRequest (c : Client) (username password : string) (permissions : Z)
    (name email accountType : string) : Request :=
  requestOf c "POST" "users"
    (Some (CreateUser_payload username password permissions name email accountType)).

(** The follow-up request of a create call for user [id]. *)
Definition enableRequest (c : Client) (id : Z) (enabled : bool) : Request :=
  requestOf c "PUT" ("users/" +:+ Itoa id +:+ "/enabled")
    (Some {[ "enabled" := VBool enabled ]}).

(** The GET of one user and the PUT of an update. *)
Definition getRequest (c : Client) (id : Z) : Request :=
  requestOf c "GET" ("users/" +:+ Itoa id) None.

Definition updateRequest (c : Client) (id : Z) (payload : gmap string value) : Request :=
  requestOf c "PUT" ("users/" +:+ Itoa id) (Some payload).

(** A computation of the client that only adds requests with the header
    of client [c] to the log. *)
Definition sendsAs {Server A : Type} (c : Client) (m : M Server A) : Prop :=
  ∀ w : World Server,
    ∃ reqs : list Request,
      sent (m w).1 = sent w ++ reqs ∧ Forall (λ q, Header q = clientHeader c) reqs.

(** The world after [req] went out and the server moved to [srv]. *)
Definition afterSend {Server} (w : World Server) (req : Request) (srv : Server)
  : World Server :=
  {| server := srv; sent := sent w ++ [req] |}.

(** ** Vocabulary of the further statements *)

(** The credential [Configure] settles on: the configured value unless it
    is null, in which case the environment variable. *)
Definition resolveKey (getenv : string → string) (variable : string)
    (configured : types_String) : string :=
  if IsNull configured then getenv variable else ValueString configured.

(** The DELETE of one user. *)
Definition deleteRequest (c : Client) (id : Z) : Request :=
  requestOf c "DELETE" ("users/" +:+ Itoa id) None.

(** The plan asks for no change of the four attributes that [Update] can
    change, an unknown planned value asking for nothing and a null text
    counting as the empty text. *)
Definition unchanged (plan state : userResourceModel) : Prop :=
  ValueInt64 (resource_Permissions plan) = ValueInt64 (resource_Permissions state)
  ∧ (IsUnknown (resource_Name plan) = true
     ∨ ValueString (resource_Name plan) = ValueString (resource_Name state))
  ∧ (IsUnknown (resource_Email plan) = true
     ∨ ValueString (resource_Email plan) = ValueString (resource_Email state))
  ∧ (BoolIsUnknown (resource_Enabled plan) = true
     ∨ ValueBool (resource_Enabled plan) = ValueBool (resource_Enabled state)).

(** A lookup that only reads: it adds at most one request to the log, a
    GET without a body, and its response holds either a state and no
    diagnostic, or no state and at most one diagnostic. *)
Definition readsOnly {Server model : Type} (w : World Server)
    (out : World Server * ReadResponse model) : Prop :=
  (∃ reqs : list Request,
     sent out.1 = sent w ++ reqs ∧ length reqs ≤ 1
     ∧ Forall (λ q, Method q = "GET" ∧ Body q = None) reqs)
  ∧ match State out.2 with
    | Some _ => Diagnostics out.2 = []
    | None => length (Diagnostics out.2) ≤ 1
    end.

(** * Properties *)

(** ** Strings *)

Lemma allBytes_app (p : ascii → bool) (s t : string) :
  allBytes p (s +:+ t) = allBytes p s && allBytes p t.
Proof.
  induction s as [|c s IH]; simpl; [done|].
  rewrite IH. by rewrite andb_assoc.
Qed.

Lemma pretty_N_go_allBytes (p : ascii → bool) (x : N) (s : string) :
  (∀ d, p (pretty_N_char d) = true) →
  allBytes p s = true →
  allBytes p (pretty_N_go x s) = true.
Proof.
  intros Hd. revert s.
  induction (N.lt_wf_0 x) as [x _ IH]; intros s Hs.
  destruct (decide (x = 0)%N) as [->|Hx].
  - by rewrite pretty_N_go_0.
  - rewrite pretty_N_go_step by lia.
    apply IH; [apply N.div_lt; lia|].
    simpl. by rewrite Hd, Hs.
Qed.

Lemma Itoa_allBytes (p : ascii → bool) (n : Z) :
  (∀ d, p (pretty_N_char d) = true) →
  p "-"%char = true →
  allBytes p (Itoa n) = true.
Proof.
  intros Hd Hm.
  pose proof (Hd 0%N) as H0. simpl in H0.
  assert (Hnat : ∀ x : N, allBytes p (pretty x) = true).
  { intros x. unfold pretty, pretty_N. case_decide.
    - simpl. by rewrite H0.
    - by apply pretty_N_go_allBytes. }
  unfold Itoa, pretty, pretty_Z. destruct n as [|q|q].
  - simpl. by rewrite H0.
  - apply (Hnat (N.pos q)).
  - simpl. rewrite Hm. apply (Hnat (N.pos q)).
Qed.

Lemma pretty_N_char_urlSafe (d : N) : urlSafeByte (pretty_N_char d) = true.
Proof. unfold pretty_N_char. by repeat case_match. Qed.

Lemma Itoa_urlSafe (n : Z) : allBytes urlSafeByte (Itoa n) = true.
Proof. apply Itoa_allBytes; [apply pretty_N_char_urlSafe|done]. Qed.

Lemma cutByte_absent (s : string) (sep : ascii) :
  allBytes (λ c, negb (Ascii.eqb c sep)) s = true →
  cutByte s sep = (s, EmptyString).
Proof.
  induction s as [|c s IH]; simpl; [done|].
  intros [Hc Hs]%andb_true_iff.
  apply negb_true_iff in Hc. rewrite Hc, (IH Hs). done.
Qed.

Lemma validEscapes_cons (c : ascii) (s : string) :
  Ascii.eqb c "%" = false → validEscapes (String c s) = validEscapes s.
Proof.
  destruct c as [[] [] [] [] [] [] [] []]; simpl; try done.
Qed.

Lemma validEscapes_absent (s : string) :
  allBytes (λ c, negb (Ascii.eqb c "%")) s = true → validEscapes s = true.
Proof.
  induction s as [|c s IH]; [done|].
  simpl allBytes. intros [Hc Hs]%andb_true_iff.
  apply negb_true_iff in Hc. rewrite (validEscapes_cons _ _ Hc). auto.
Qed.

Lemma allBytes_weaken (p q : ascii → bool) (s : string) :
  (∀ c, p c = true → q c = true) → allBytes p s = true → allBytes q s = true.
Proof.
  intros Hpq. induction s as [|c s IH]; simpl; [done|].
  intros [Hc Hs]%andb_true_iff. by rewrite (Hpq _ Hc), (IH Hs).
Qed.

Lemma urlParse_ok_safe (url : string) :
  allBytes urlSafeByte url = true → urlParse_ok url = true.
Proof.
  intros Hs. unfold urlParse_ok.
  assert (Hctl : allBytes (λ c, negb (isCTL c)) url = true).
  { eapply allBytes_weaken; [|exact Hs]. intros c. unfold urlSafeByte.
    rewrite !andb_true_iff. tauto. }
  assert (Hhash : allBytes (λ c, negb (Ascii.eqb c "#")) url = true).
  { eapply allBytes_weaken; [|exact Hs]. intros c. unfold urlSafeByte.
    rewrite !andb_true_iff. tauto. }
  assert (Hquery : allBytes (λ c, negb (Ascii.eqb c "?")) url = true).
  { eapply allBytes_weaken; [|exact Hs]. intros c. unfold urlSafeByte.
    rewrite !andb_true_iff. tauto. }
  assert (Hpct : allBytes (λ c, negb (Ascii.eqb c "%")) url = true).
  { eapply allBytes_weaken; [|exact Hs]. intros c. unfold urlSafeByte.
    rewrite !andb_true_iff. tauto. }
  rewrite (cutByte_absent url "#" Hhash), (cutByte_absent url "?" Hquery).
  by rewrite Hctl, (validEscapes_absent url Hpct).
Qed.

(** ** Requests *)

Lemma canonical_content_type : CanonicalMIMEHeaderKey "Content-Type" = "Content-Type".
Proof. reflexivity. Qed.

Lemma canonical_api_keys : CanonicalMIMEHeaderKey "X-ApiKeys" = "X-Apikeys".
Proof. reflexivity. Qed.

Lemma NewRequest_inv (method url : string) (body : option (gmap string value))
    (req : Request) :
  NewRequest method url body = Ok req →
  req = {| Method := if String.eqb method "" then "GET" else method;
           URL := url; Header := ∅; Body := body |}.
Proof.
  unfold NewRequest.
  destruct (negb (validMethod _)); [done|].
  destruct (negb (urlParse_ok url)); [done|].
  by intros [= <-].
Qed.

(** Whatever [newRequest] returns has the header of the client, the body it
    was given and the URL under the base endpoint. *)
Lemma newRequest_inv (c : Client) (method path : string)
    (body : option (gmap string value)) (req : Request) :
  newRequest c method path body = Ok req →
  Header req = clientHeader c ∧ Body req = body
  ∧ URL req = baseURL +:+ "/" +:+ trimLeftByte path "/"
  ∧ Method req = (if String.eqb method "" then "GET" else method).
Proof.
  unfold newRequest.
  set (url := trimRightByte baseURL "/" +:+ "/" +:+ trimLeftByte path "/").
  assert (Hgo : match NewRequest method url body with
                | Err e => Err e
                | Ok r => Ok {| Method := Method r; URL := URL r;
                                Header := Header_Set
                                  (Header_Set (Header r) "Content-Type" "application/json")
                                  "X-ApiKeys"
                                  ("accessKey=" +:+ AccessKey c +:+ "; secretKey="
                                   +:+ SecretKey c +:+ ";");
                                Body := Body r |}
                end = Ok req →
                Header req = clientHeader c ∧ Body req = body
                ∧ URL req = url
                ∧ Method req = (if String.eqb method "" then "GET" else method)).
  { destruct (NewRequest method url body) as [r|e] eqn:Hr; [|done].
    apply NewRequest_inv in Hr as ->. by intros [= <-]. }
  destruct body as [b|]; [destruct (jsonEncodable (VMap b)); [|done]|]; exact Hgo.
Qed.

(** A token method, a path of harmless bytes and an encodable body always
    give a request. *)
Lemma newRequest_ok (c : Client) (method path : string)
    (body : option (gmap string value)) :
  validMethod method = true →
  allBytes urlSafeByte path = true →
  trimLeftByte path "/" = path →
  match body with Some b => jsonEncodable (VMap b) = true | None => True end →
  newRequest c method path body = Ok (requestOf c method path body).
Proof.
  intros Hm Hp Htrim Hb.
  assert (Hne : String.eqb method "" = false).
  { unfold validMethod in Hm. apply andb_true_iff in Hm as [Hm _].
    by apply negb_true_iff in Hm. }
  assert (Hurl : urlParse_ok (trimRightByte baseURL "/" +:+ "/" +:+ path) = true).
  { apply urlParse_ok_safe. by rewrite !allBytes_app, Hp. }
  assert (HN : NewRequest method (trimRightByte baseURL "/" +:+ "/" +:+ path) body
               = Ok {| Method := method; URL := baseURL +:+ "/" +:+ path;
                       Header := ∅; Body := body |}).
  { unfold NewRequest. by rewrite Hne, Hm, Hurl. }
  unfold newRequest. rewrite Htrim, HN.
  destruct body as [b|]; [rewrite Hb|]; done.
Qed.

Lemma userPath_ok (id : Z) :
  allBytes urlSafeByte ("users/" +:+ Itoa id) = true
  ∧ trimLeftByte ("users/" +:+ Itoa id) "/" = "users/" +:+ Itoa id.
Proof. split; [|done]. by rewrite allBytes_app, Itoa_urlSafe. Qed.

Lemma enabledPath_ok (id : Z) :
  allBytes urlSafeByte ("users/" +:+ Itoa id +:+ "/enabled") = true
  ∧ trimLeftByte ("users/" +:+ Itoa id +:+ "/enabled") "/"
    = "users/" +:+ Itoa id +:+ "/enabled".
Proof. split; [|done]. by rewrite !allBytes_app, Itoa_urlSafe. Qed.

Lemma clientHeader_values (c : Client) :
  Header_Get (clientHeader c) "X-ApiKeys" = apiKeys c
  ∧ Header_Get (clientHeader c) "Content-Type" = "application/json".
Proof.
  unfold Header_Get, clientHeader.
  rewrite canonical_api_keys, canonical_content_type.
  by rewrite lookup_insert_eq, lookup_insert_ne, lookup_singleton_eq.
Qed.

(** C1. Every request that [newRequest] builds, for any credentials, method,
    path and body, carries the header X-ApiKeys with exactly the value
    accessKey=<access>; secretKey=<secret>; and the header Content-Type
    with the value application/json. *)
Theorem newRequest_sets_headers (c : Client) (method path : string)
    (body : option (gmap string value)) (req : Request) :
  newRequest c method path body = Ok req →
  Header_Get (Header req) "X-ApiKeys"
    = "accessKey=" +:+ AccessKey c +:+ "; secretKey=" +:+ SecretKey c +:+ ";"
  ∧ Header_Get (Header req) "Content-Type" = "application/json".
Proof.
  intros [-> _]%newRequest_inv. apply clientHeader_values.
Qed.

Lemma newRequest_sets_headers_witness :
  ∃ req, newRequest {| AccessKey := "access123"; SecretKey := "secret456" |}
           "GET" "users" None = Ok req
         ∧ Header_Get (Header req) "X-ApiKeys" = "accessKey=access123; secretKey=secret456;"
         ∧ Header_Get (Header req) "Content-Type" = "application/json".
Proof.
  eexists. split; [reflexivity|].
  apply (newRequest_sets_headers
           {| AccessKey := "access123"; SecretKey := "secret456" |} "GET" "users" None).
  reflexivity.
Defined.

(** ** Executing a request *)

Section Execute.
Context {Server : Type} `{!RoundTripper Server}.

(** [do] sends exactly one request and decides on the status code. *)
Lemma do_unfold `{!JSONDecoder} (req : Request) (target : option Shape)
    (w : World Server) :
  do req target w =
    let '(srv, r) := RoundTrip req (server w) in
    (afterSend w req srv,
     match r with
     | Err e => Err e
     | Ok resp =>
         if is2xx (StatusCode resp) then
           match target return result (targetT target) with
           | None => Ok tt
           | Some t => json_Decode t (RespBody resp)
           end
         else Err ("API error: " +:+ Status resp +:+ ": " +:+ RespBody resp)
     end).
Proof.
  unfold do, bind, Http_Do, afterSend, is2xx.
  destruct (RoundTrip req (server w)) as [srv [resp|e]]; [|done].
  destruct (Z.ltb_spec (StatusCode resp) 200), (Z.leb_spec 300 (StatusCode resp)),
    (Z.leb_spec 200 (StatusCode resp)), (Z.ltb_spec (StatusCode resp) 300);
    try lia; simpl; try done.
  by destruct target.
Qed.

Lemma do_sent `{!JSONDecoder} (req : Request) (target : option Shape)
    (w : World Server) :
  sent (do req target w).1 = sent w ++ [req].
Proof. rewrite do_unfold. by destruct (RoundTrip req (server w)). Qed.
End Execute.

Lemma contains_middle (pre part post : string) :
  contains (pre +:+ part +:+ post) part.
Proof. by exists pre, post. Qed.

Lemma append_empty_r (s : string) : s +:+ EmptyString = s.
Proof.
  induction s as [|a s IH]; [done|].
  change (String a (s +:+ EmptyString) = String a s). by rewrite IH.
Qed.

Lemma contains_end (pre part : string) : contains (pre +:+ part) part.
Proof. exists pre, EmptyString. by rewrite append_empty_r. Qed.

Lemma append_assoc (a b c : string) : (a +:+ b) +:+ c = a +:+ (b +:+ c).
Proof.
  induction a as [|x a IH]; [done|].
  change (String x ((a +:+ b) +:+ c) = String x (a +:+ (b +:+ c))). by rewrite IH.
Qed.

(** C5. For a request that the transport answers with a response:
    - when the status code is outside 200-299, [do] returns an error whose
      message contains the status text and the raw body, and it is the same
      error whatever the decoder and the target are (nothing is decoded);
    - when the code is in 200-299 and there is no target, [do] succeeds
      whatever the body and the decoder are;
    - when there is a target, the outcome is the outcome of decoding the
      body into it: the decoded value, or the decoder's error. *)
Theorem do_by_status {Server : Type} `{!RoundTripper Server}
    (req : Request) (w : World Server) (srv : Server) (resp : Response) :
  RoundTrip req (server w) = (srv, Ok resp) →
  (is2xx (StatusCode resp) = false →
     ∃ msg, contains msg (Status resp) ∧ contains msg (RespBody resp)
       ∧ ∀ (dec : JSONDecoder) (target : option Shape),
           @do Server _ dec req target w = (afterSend w req srv, Err msg))
  ∧ (is2xx (StatusCode resp) = true →
       ∀ dec : JSONDecoder,
         @do Server _ dec req None w = (afterSend w req srv, Ok tt))
  ∧ (is2xx (StatusCode resp) = true →
       ∀ (dec : JSONDecoder) (t : Shape),
         @do Server _ dec req (Some t) w
         = (afterSend w req srv, dec t (RespBody resp))).
Proof.
  intros Hrt. split; [|split]; intros Hcode.
  - exists ("API error: " +:+ Status resp +:+ ": " +:+ RespBody resp).
    split; [apply contains_middle|]. split.
    + rewrite <- !append_assoc. apply contains_end.
    + intros dec target. rewrite (@do_unfold _ _ dec), Hrt. simpl. by rewrite Hcode.
  - intros dec. rewrite (@do_unfold _ _ dec), Hrt. simpl. by rewrite Hcode.
  - intros dec t. rewrite (@do_unfold _ _ dec), Hrt. simpl. by rewrite Hcode.
Qed.

Lemma do_by_status_witness :
  let req := requestOf testClient "DELETE" "users/9" None in
  let w := fresh [respond 404 "404 Not Found" "no such user"] in
  RoundTrip req (server w)
    = ([], Ok {| StatusCode := 404; Status := "404 Not Found"; RespBody := "no such user" |})
  ∧ ∃ msg, contains msg "404 Not Found" ∧ contains msg "no such user"
      ∧ ∀ (dec : JSONDecoder) (target : option Shape),
          @do _ _ dec req target w = (afterSend w req [], Err msg).
Proof.
  intros req w. split; [reflexivity|].
  apply (do_by_status req w []
           {| StatusCode := 404; Status := "404 Not Found"; RespBody := "no such user" |});
    reflexivity.
Defined.

(** The three cases on the test server. *)
Example do_error_message :
  (do (requestOf testClient "DELETE" "users/9" None) None
      (fresh [respond 404 "404 Not Found" "no such user"])).2
  = Err "API error: 404 Not Found: no such user".
Proof. reflexivity. Qed.

Example do_no_target :
  (do (requestOf testClient "DELETE" "users/9" None) None
      (fresh [respond 204 "204 No Content" "ignored"])).2
  = Ok tt.
Proof. reflexivity. Qed.

Example do_decode_failure :
  (do (requestOf testClient "GET" "users/9" None) (Some MapShape)
      (fresh [respond 200 "200 OK" "<html>"])).2
  = Err "invalid character looking for beginning of value".
Proof. reflexivity. Qed.

(** ** Every request of every method carries the client's header *)

Create HintDb client_log.

Section Log.
Context {Server : Type} `{!RoundTripper Server} `{!JSONDecoder}.

Lemma sendsAs_ret {A : Type} (c : Client) (a : A) : sendsAs c (ret a : M Server A).
Proof. intros w. exists []. by rewrite app_nil_r. Qed.

Lemma sendsAs_bind {A B : Type} (c : Client) (m : M Server A) (k : A → M Server B) :
  sendsAs c m → (∀ a, sendsAs c (k a)) → sendsAs c (bind m k).
Proof.
  intros Hm Hk w. unfold bind.
  destruct (Hm w) as (reqs1 & Hs1 & Hall1).
  destruct (m w) as [w1 [a|e]]; simpl in Hs1.
  - destruct (Hk a w1) as (reqs2 & Hs2 & Hall2).
    exists (reqs1 ++ reqs2). rewrite Hs2, Hs1, app_assoc.
    split; [done|]. by apply Forall_app.
  - by exists reqs1.
Qed.

Lemma sendsAs_do (c : Client) (req : Request) (target : option Shape) :
  Header req = clientHeader c → sendsAs c (do req target).
Proof.
  intros Hreq w. exists [req]. rewrite do_sent.
  split; [done|]. by constructor.
Qed.

Lemma sendsAs_do_none (c : Client) (req : Request) :
  Header req = clientHeader c → sendsAs c (do req None : M Server unit).
Proof. exact (sendsAs_do c req None). Qed.

Lemma sendsAs_do_shape (c : Client) (req : Request) (t : Shape) :
  Header req = clientHeader c → sendsAs c (do req (Some t) : M Server (shapeT t)).
Proof. exact (sendsAs_do c req (Some t)). Qed.

(** A continuation that behaves for every request with the client's
    header behaves for the one [newRequest] returns, if it returns one. *)
Lemma sendsAs_newRequest {A : Type} (c : Client) (method path : string)
    (body : option (gmap string value)) (k : Request → M Server A) :
  (∀ req, Header req = clientHeader c → sendsAs c (k req)) →
  sendsAs c (bind (lift (newRequest c method path body)) k).
Proof.
  intros Hk w. unfold bind, lift.
  destruct (newRequest c method path body) as [req|e] eqn:Hreq.
  - apply Hk. by apply newRequest_inv in Hreq as [? _].
  - exists []. by rewrite app_nil_r.
Qed.

#[local] Hint Resolve sendsAs_ret sendsAs_bind sendsAs_do_none sendsAs_do_shape
  sendsAs_newRequest : client_log.

Lemma SetUserEnabled_sendsAs (c : Client) (id : Z) (enabled : bool) :
  sendsAs c (SetUserEnabled c id enabled : M Server unit).
Proof. unfold SetUserEnabled. eauto with client_log. Qed.

Lemma GetUser_sendsAs (c : Client) (id : Z) : sendsAs c (GetUser c id : M Server User).
Proof. unfold GetUser. eauto 6 with client_log. Qed.

(** One step along the shape of a method's body. *)
Ltac client_log :=
  repeat match goal with
    | |- sendsAs _ _ =>
        first [apply sendsAs_do_none | apply sendsAs_do_shape]; assumption
    | |- sendsAs _ (ret _) => apply sendsAs_ret
    | |- sendsAs _ (GetUser _ _) => apply GetUser_sendsAs
    | |- sendsAs _ (SetUserEnabled _ _ _) => apply SetUserEnabled_sendsAs
    | |- sendsAs _ _ => apply sendsAs_newRequest; intros ? ?
    | |- sendsAs _ (bind _ _) => apply sendsAs_bind; [|intros ?]
    | |- sendsAs _ (if ?b then _ else _) => destruct b
    | |- sendsAs _ (let _ := _ in _) => cbv zeta
    end.

(** All the methods of the client: whatever they send has the content type
    and the authentication header that [newRequest] sets. *)
Lemma methods_sendAs (c : Client) :
  (∀ username password permissions name email accountType enabled,
     sendsAs c (CreateUser c username password permissions name email accountType
                  enabled : M Server User))
  ∧ (∀ id, sendsAs c (GetUser c id : M Server User))
  ∧ sendsAs c (ListUsers c : M Server (list User))
  ∧ sendsAs c (ListRoles c : M Server (list Role))
  ∧ sendsAs c (ListGroups c : M Server (list Group))
  ∧ (∀ id permissions name email enabled,
       sendsAs c (UpdateUser c id permissions name email enabled : M Server User))
  ∧ (∀ id, sendsAs c (DeleteUser c id : M Server unit))
  ∧ (∀ id enabled, sendsAs c (SetUserEnabled c id enabled : M Server unit)).
Proof.
  repeat split; intros;
    unfold CreateUser, ListUsers, ListRoles, ListGroups, UpdateUser, DeleteUser;
    client_log.
Qed.
End Log.

(** ** Numeric coercion *)

Lemma inInt_zero : inInt 0 = true.
Proof. reflexivity. Qed.

(** Converting a float that holds exactly the integer [n] gives [n], when
    [n] is an [int]. *)
Lemma int_of_float64_exact (f : spec_float) (n : Z) :
  float_represents f n → inInt n = true → int_of_float64 f = n.
Proof.
  unfold int_of_float64.
  destruct f as [s|s| |s m e]; cbn [float_represents truncFloat].
  - intros -> _. by rewrite inInt_zero.
  - done.
  - done.
  - intros Hrep Hn.
    assert (Htrunc : (if s
                      then - (if (0 <=? e)%Z then Z.pos m * 2 ^ e
                              else Z.pos m / 2 ^ (- e))
                      else (if (0 <=? e)%Z then Z.pos m * 2 ^ e
                            else Z.pos m / 2 ^ (- e)))%Z = n).
    { destruct (Z.leb_spec 0 e) as [He|He].
      - rewrite Z.max_l, Z.max_r in Hrep by lia.
        rewrite Z.pow_0_r, Z.mul_1_r in Hrep.
        destruct s; lia.
      - rewrite Z.max_r, Z.max_l in Hrep by lia.
        rewrite Z.pow_0_r, Z.mul_1_r in Hrep.
        assert (Hpow : (0 < 2 ^ (- e))%Z) by (apply Z.pow_pos_nonneg; lia).
        destruct s.
        + assert (Z.pos m = (- n) * 2 ^ (- e))%Z as -> by lia.
          rewrite Z.div_mul by lia. lia.
        + rewrite Hrep, Z.div_mul by lia. done. }
    by rewrite Htrunc, Hn.
Qed.

Lemma intField_float (m : gmap string value) (key : string) (f : spec_float) :
  intField (<[key := VFloat64 f]> m) key = int_of_float64 f.
Proof. unfold intField. by rewrite lookup_insert_eq. Qed.

Lemma intField_int (m : gmap string value) (key : string) (n : Z) :
  intField (<[key := VInt n]> m) key = n.
Proof. unfold intField. by rewrite lookup_insert_eq. Qed.

(** C6. For the records User (as decoded by GetUser, ListUsers and
    CreateUser), Role and Group and for the numeric fields id and
    permissions: a map in which the field holds the floating-point
    representation of an integer n decodes to the same integer field as the
    map in which it holds the integer n itself, namely to n. *)
Theorem numeric_coercion (m : gmap string value) (f : spec_float) (n : Z) :
  float_represents f n →
  inInt n = true →
  User_ID (decodeUser (<["id" := VFloat64 f]> m)) = n
  ∧ User_ID (decodeUser (<["id" := VInt n]> m)) = n
  ∧ User_Permissions (decodeUser (<["permissions" := VFloat64 f]> m)) = n
  ∧ User_Permissions (decodeUser (<["permissions" := VInt n]> m)) = n
  ∧ User_ID (decodeCreatedUser (<["id" := VFloat64 f]> m)) = n
  ∧ User_ID (decodeCreatedUser (<["id" := VInt n]> m)) = n
  ∧ User_Permissions (decodeCreatedUser (<["permissions" := VFloat64 f]> m)) = n
  ∧ User_Permissions (decodeCreatedUser (<["permissions" := VInt n]> m)) = n
  ∧ Role_ID (decodeRole (<["id" := VFloat64 f]> m)) = n
  ∧ Role_ID (decodeRole (<["id" := VInt n]> m)) = n
  ∧ Group_ID (decodeGroup (<["id" := VFloat64 f]> m)) = n
  ∧ Group_ID (decodeGroup (<["id" := VInt n]> m)) = n.
Proof.
  intros Hrep Hn. simpl.
  rewrite !intField_float, !intField_int, (int_of_float64_exact f n Hrep Hn).
  done.
Qed.

Lemma numeric_coercion_witness :
  float_represents (float64_of_int 1) 1 ∧ inInt 1 = true
  ∧ User_ID (decodeUser (<["id" := VFloat64 (float64_of_int 1)]> ∅)) = 1%Z
  ∧ User_ID (decodeUser (<["id" := VInt 1]> ∅)) = 1%Z.
Proof.
  split; [reflexivity|]. split; [reflexivity|].
  pose proof (numeric_coercion ∅ (float64_of_int 1) 1 eq_refl eq_refl) as H.
  split; [apply H|apply H].
Defined.

(** The floats of some integers, among them the largest [int] that a
    [float64] holds exactly below [2^63] and a float with a fraction. *)
Example float_of_sixteen : float_represents (float64_of_int 16) 16.
Proof. reflexivity. Qed.

Example float_of_negative : int_of_float64 (float64_of_int (-42)) = (-42)%Z.
Proof. reflexivity. Qed.

Example float_of_large :
  int_of_float64 (float64_of_int (2 ^ 62)) = (2 ^ 62)%Z.
Proof. reflexivity. Qed.

Example float_with_fraction : int_of_float64 (S754_finite false 3 (-1)) = 1%Z.
Proof. reflexivity. Qed.

(** ** Creating a user *)

Lemma jsonEncodable_map (m : gmap string value) :
  map_Forall (λ _ v, jsonEncodable v = true) m → jsonEncodable (VMap m) = true.
Proof.
  simpl. induction m as [|k v m Hk Hfold IH] using map_first_key_ind; intros Hall.
  - by rewrite map_fold_empty.
  - rewrite map_fold_insert_first_key by done.
    apply map_Forall_insert in Hall as [Hv Hm]; [|done].
    by rewrite Hv, IH.
Qed.

Lemma CreateUser_payload_encodable (username password : string) (permissions : Z)
    (name email accountType : string) :
  jsonEncodable
    (VMap (CreateUser_payload username password permissions name email accountType))
  = true.
Proof.
  apply jsonEncodable_map. unfold CreateUser_payload.
  destruct (String.eqb name ""), (String.eqb email "");
    repeat (apply map_Forall_insert_2; [done|]);
    apply map_Forall_empty.
Qed.

Section Create.
Context {Server : Type} `{!RoundTripper Server} `{!JSONDecoder}.

(** [SetUserEnabled] is one PUT on the dedicated endpoint. *)
Lemma SetUserEnabled_unfold (c : Client) (id : Z) (enabled : bool)
    (w : World Server) :
  SetUserEnabled c id enabled w
  = do (requestOf c "PUT" ("users/" +:+ Itoa id +:+ "/enabled")
          (Some {[ "enabled" := VBool enabled ]})) None w.
Proof.
  unfold SetUserEnabled, bind, lift.
  destruct (enabledPath_ok id) as [Hsafe Htrim].
  rewrite newRequest_ok; [done..|].
  by apply jsonEncodable_map, map_Forall_singleton.
Qed.

(** [CreateUser] is the POST, the decoding, and the conditional follow-up. *)
Lemma CreateUser_unfold (c : Client) (username password : string) (permissions : Z)
    (name email accountType : string) (enabled : bool) (w : World Server) :
  CreateUser c username password permissions name email accountType enabled w
  = match do (requestOf c "POST" "users"
                (Some (CreateUser_payload username password permissions
                         name email accountType)))
             (Some MapShape) w with
    | (w1, Err e) => (w1, Err e)
    | (w1, Ok resp) =>
        let user := decodeCreatedUser resp in
        if negb (User_ID user =? 0)%Z && negb (eqb (User_Enabled user) enabled) then
          match SetUserEnabled c (User_ID user) enabled w1 with
          | (w2, Err e) => (w2, Err e)
          | (w2, Ok _) => (w2, Ok (setEnabled user enabled))
          end
        else (w1, Ok user)
    end.
Proof.
  unfold CreateUser, bind at 1, lift.
  rewrite newRequest_ok; [|done..|apply CreateUser_payload_encodable].
  unfold bind at 1.
  destruct (do _ (Some MapShape) w) as [w1 [resp|e]]; [|done].
  cbv zeta. case (negb _ && negb _); [|done].
  unfold bind, ret. by destruct (SetUserEnabled _ _ _ w1) as [w2 [[]|e]].
Qed.
End Create.

Section CreateClaims.
Context {Server : Type} `{!RoundTripper Server} `{!JSONDecoder}.
Variables (c : Client) (username password : string) (permissions : Z)
          (name email accountType : string).

Local Abbreviation createRequest :=
  (createRequest c username password permissions name email accountType).
Local Abbreviation enableRequest := (enableRequest c).

(** A create call whose POST is answered with a 2xx status and a body
    that decodes to [resp]. *)
Lemma CreateUser_after_post (enabled : bool) (w : World Server) (srv : Server)
    (r : Response) (resp : gmap string value) :
  RoundTrip createRequest (server w) = (srv, Ok r) →
  is2xx (StatusCode r) = true →
  json_Decode MapShape (RespBody r) = Ok resp →
  CreateUser c username password permissions name email accountType enabled w
  = let w1 := afterSend w createRequest srv in
    let user := decodeCreatedUser resp in
    if negb (User_ID user =? 0)%Z && negb (eqb (User_Enabled user) enabled) then
      match SetUserEnabled c (User_ID user) enabled w1 with
      | (w2, Err e) => (w2, Err e)
      | (w2, Ok _) => (w2, Ok (setEnabled user enabled))
      end
    else (w1, Ok user).
Proof.
  intros Hrt Hcode Hdec. rewrite CreateUser_unfold, do_unfold.
  fold createRequest. rewrite Hrt. cbv beta iota zeta.
  by rewrite Hcode, Hdec.
Qed.

(** C8. In a create call whose POST succeeds with a body that decodes to
    the map [resp], the record the call goes on with (before the enabled
    flag is compared with the requested one) is enabled when [resp] has
    no key enabled, and has the value of that key when it is a boolean. *)
Theorem create_enabled_default (enabled : bool) (w : World Server) (srv : Server)
    (r : Response) (resp : gmap string value) :
  RoundTrip createRequest (server w) = (srv, Ok r) →
  is2xx (StatusCode r) = true →
  json_Decode MapShape (RespBody r) = Ok resp →
  ∃ user : User,
    (resp !! "enabled" = None → User_Enabled user = true)
    ∧ (∀ b : bool, resp !! "enabled" = Some (VBool b) → User_Enabled user = b)
    ∧ user = decodeCreatedUser resp
    ∧ CreateUser c username password permissions name email accountType enabled w
      = if negb (User_ID user =? 0)%Z && negb (eqb (User_Enabled user) enabled) then
          match SetUserEnabled c (User_ID user) enabled
                  (afterSend w createRequest srv) with
          | (w2, Err e) => (w2, Err e)
          | (w2, Ok _) => (w2, Ok (setEnabled user enabled))
          end
        else (afterSend w createRequest srv, Ok user).
Proof.
  intros Hrt Hcode Hdec. exists (decodeCreatedUser resp).
  repeat split.
  - simpl. by intros ->.
  - simpl. by intros b ->.
  - by rewrite (CreateUser_after_post enabled w srv r resp).
Qed.

(** C9. In a create call whose POST succeeds with a body that decodes to
    a map giving the user ID 0, no further request is sent, whatever the
    requested enabled flag is, and the call returns the decoded record
    with the enabled value it was decoded with. *)
Theorem create_without_id (enabled : bool) (w : World Server) (srv : Server)
    (r : Response) (resp : gmap string value) :
  RoundTrip createRequest (server w) = (srv, Ok r) →
  is2xx (StatusCode r) = true →
  json_Decode MapShape (RespBody r) = Ok resp →
  intField resp "id" = 0%Z →
  ∃ w1 : World Server,
    CreateUser c username password permissions name email accountType enabled w
    = (w1, Ok (decodeCreatedUser resp))
    ∧ server w1 = srv
    ∧ sent w1 = sent w ++ [createRequest].
Proof.
  intros Hrt Hcode Hdec Hid. exists (afterSend w createRequest srv).
  rewrite (CreateUser_after_post enabled w srv r resp) by done.
  cbv zeta. simpl User_ID. by rewrite Hid.
Qed.

(** C2, as the code has it.  In a create call with the requested flag
    false, whose POST succeeds with a body that decodes to a map with a
    user ID other than 0 and with enabled true or without the key
    enabled: the call goes on with SetUserEnabled for that ID and false,
    which sends one PUT to /users/{id}/enabled with the body enabled =
    false; if that succeeds the call returns the record with Enabled =
    false, and if it fails the call returns its error. *)
Theorem create_then_reconcile (w : World Server) (srv : Server)
    (r : Response) (resp : gmap string value) :
  RoundTrip createRequest (server w) = (srv, Ok r) →
  is2xx (StatusCode r) = true →
  json_Decode MapShape (RespBody r) = Ok resp →
  intField resp "id" ≠ 0%Z →
  resp !! "enabled" = Some (VBool true) ∨ resp !! "enabled" = None →
  let id := intField resp "id" in
  let w1 := afterSend w createRequest srv in
  ∃ (w2 : World Server) (outcome : result unit),
    SetUserEnabled c id false w1 = (w2, outcome)
    ∧ sent w2 = sent w ++ [createRequest; enableRequest id false]
    ∧ Method (enableRequest id false) = "PUT"
    ∧ URL (enableRequest id false) = baseURL +:+ "/users/" +:+ Itoa id +:+ "/enabled"
    ∧ Body (enableRequest id false) = Some {[ "enabled" := VBool false ]}
    ∧ CreateUser c username password permissions name email accountType false w
      = (w2, match outcome with
             | Ok _ => Ok (setEnabled (decodeCreatedUser resp) false)
             | Err e => Err e
             end).
Proof.
  intros Hrt Hcode Hdec Hid Hen id w1.
  destruct (SetUserEnabled c id false w1) as [w2 outcome] eqn:Hset.
  exists w2, outcome. split; [done|]. split; [|repeat split].
  - rewrite SetUserEnabled_unfold in Hset.
    pose proof (do_sent (enableRequest id false) None w1) as Hsent.
    unfold enableRequest in Hsent at 1. rewrite Hset in Hsent.
    simpl in Hsent. rewrite Hsent. unfold w1. simpl. by rewrite <- app_assoc.
  - rewrite (CreateUser_after_post false w srv r resp) by done.
    cbv zeta. simpl User_ID. simpl User_Enabled.
    fold id. fold w1.
    assert ((id =? 0)%Z = false) as -> by (apply Z.eqb_neq; done).
    assert (match resp !! "enabled" with
            | Some (VBool b) => b
            | Some _ => false
            | None => true
            end = true) as ->.
    { by destruct Hen as [-> | ->]. }
    simpl. rewrite Hset. by destruct outcome.
Qed.
End CreateClaims.

(** The scenario of the specification on the test server: the server
    answers the POST with an enabled user 7, then accepts the PUT. *)
Lemma create_then_reconcile_witness :
  let w := fresh [respond 200 "200 OK" (encodeSample created);
                  respond 200 "200 OK" EmptyString] in
  let resp : gmap string value :=
    <["id" := VFloat64 (float64_of_int 7)]>
      (<["username" := VString "carol"]> {[ "enabled" := VBool true ]}) in
  ∃ (w2 : World Script) (outcome : result unit),
    SetUserEnabled testClient 7 false
      (afterSend w (createRequest testClient "carol" "pw" 16 "" "" "local")
         [respond 200 "200 OK" EmptyString])
    = (w2, outcome)
    ∧ sent w2 = sent w ++ [createRequest testClient "carol" "pw" 16 "" "" "local";
                           enableRequest testClient 7 false]
    ∧ Method (enableRequest testClient 7 false) = "PUT"
    ∧ URL (enableRequest testClient 7 false) = "https://cloud.tenable.com/users/7/enabled"
    ∧ Body (enableRequest testClient 7 false) = Some {[ "enabled" := VBool false ]}
    ∧ CreateUser testClient "carol" "pw" 16 "" "" "local" false w
      = (w2, match outcome with
             | Ok _ => Ok (setEnabled (decodeCreatedUser resp) false)
             | Err e => Err e
             end).
Proof.
  intros w resp.
  apply (create_then_reconcile testClient "carol" "pw" 16 "" "" "local" w
           [respond 200 "200 OK" EmptyString]
           {| StatusCode := 200; Status := "200 OK"; RespBody := encodeSample created |}
           resp).
  - reflexivity.
  - reflexivity.
  - vm_compute. reflexivity.
  - vm_compute. discriminate.
  - left. vm_compute. reflexivity.
Defined.

(** C2 as stated fails: the server reports enabled = true but no usable id;
    the flag false was requested, yet the call succeeds with an enabled
    record and only the POST was sent. *)
Lemma create_then_reconcile_counterexample :
  let w := fresh [respond 200 "200 OK" (encodeSample createdNoID);
                  respond 200 "200 OK" EmptyString] in
  let out := CreateUser testClient "carol" "pw" 16 "" "" "local" false w in
  json_Decode MapShape (encodeSample createdNoID)
    = Ok (<["username" := VString "carol"]> {[ "enabled" := VBool true ]})
  ∧ (∃ u : User, out.2 = Ok u ∧ User_Enabled u = true)
  ∧ Method <$> sent out.1 = ["POST"].
Proof.
  intros w out. split; [vm_compute; reflexivity|]. split.
  - eexists. split; [vm_compute; reflexivity|reflexivity].
  - vm_compute. reflexivity.
Qed.

Lemma create_enabled_default_witness :
  let w := fresh [respond 200 "200 OK" (encodeSample createdNoEnabled);
                  respond 200 "200 OK" EmptyString] in
  let resp : gmap string value :=
    <["id" := VFloat64 (float64_of_int 7)]> {[ "username" := VString "carol" ]} in
  ∃ user : User,
    (resp !! "enabled" = None → User_Enabled user = true)
    ∧ (∀ b : bool, resp !! "enabled" = Some (VBool b) → User_Enabled user = b)
    ∧ user = decodeCreatedUser resp
    ∧ CreateUser testClient "carol" "pw" 16 "" "" "local" true w
      = if negb (User_ID user =? 0)%Z && negb (eqb (User_Enabled user) true) then
          match SetUserEnabled testClient (User_ID user) true
                  (afterSend w (createRequest testClient "carol" "pw" 16 "" "" "local")
                     [respond 200 "200 OK" EmptyString]) with
          | (w2, Err e) => (w2, Err e)
          | (w2, Ok _) => (w2, Ok (setEnabled user true))
          end
        else (afterSend w (createRequest testClient "carol" "pw" 16 "" "" "local")
                [respond 200 "200 OK" EmptyString], Ok user).
Proof.
  intros w resp.
  apply (create_enabled_default testClient "carol" "pw" 16 "" "" "local" true w
           [respond 200 "200 OK" EmptyString]
           {| StatusCode := 200; Status := "200 OK";
              RespBody := encodeSample createdNoEnabled |}
           resp).
  - reflexivity.
  - reflexivity.
  - vm_compute. reflexivity.
Defined.

Lemma create_without_id_witness :
  let w := fresh [respond 200 "200 OK" (encodeSample createdNoID);
                  respond 200 "200 OK" EmptyString] in
  let resp : gmap string value :=
    <["username" := VString "carol"]> {[ "enabled" := VBool true ]} in
  ∃ w1 : World Script,
    CreateUser testClient "carol" "pw" 16 "" "" "local" false w
    = (w1, Ok (decodeCreatedUser resp))
    ∧ server w1 = [respond 200 "200 OK" EmptyString]
    ∧ sent w1 = sent w ++ [createRequest testClient "carol" "pw" 16 "" "" "local"].
Proof.
  intros w resp.
  apply (create_without_id testClient "carol" "pw" 16 "" "" "local" false w
           [respond 200 "200 OK" EmptyString]
           {| StatusCode := 200; Status := "200 OK"; RespBody := encodeSample createdNoID |}
           resp).
  - reflexivity.
  - reflexivity.
  - vm_compute. reflexivity.
  - reflexivity.
Defined.

(** The key id absent, or present with a value that is no number, gives
    the user ID 0. *)
Lemma intField_absent (m : gmap string value) (key : string) :
  m !! key = None → intField m key = 0%Z.
Proof. unfold intField. by intros ->. Qed.

Lemma intField_not_numeric (m : gmap string value) (key : string) (v : value) :
  m !! key = Some v →
  (∀ f, v ≠ VFloat64 f) → (∀ n, v ≠ VInt n) →
  intField m key = 0%Z.
Proof.
  unfold intField. intros -> Hf Hn.
  destruct v; try done; [by destruct (Hf f)|by destruct (Hn n)].
Qed.

(** ** Updating a user *)

Lemma UpdateUser_payload_keys (current : User) (permissions : option Z)
    (name email : option string) (enabled : option bool) :
  UpdateUser_payload current permissions name email enabled
  = <["permissions" := VInt (default (User_Permissions current) permissions)]>
      (<["enabled" := VBool (default (User_Enabled current) enabled)]>
         (<["email" := VString (default (User_Email current) email)]>
            {[ "name" := VString (default (User_Name current) name) ]})).
Proof. destruct permissions, name, email, enabled; reflexivity. Qed.

Lemma UpdateUser_payload_encodable (current : User) (permissions : option Z)
    (name email : option string) (enabled : option bool) :
  jsonEncodable (VMap (UpdateUser_payload current permissions name email enabled)) = true.
Proof.
  rewrite UpdateUser_payload_keys. apply jsonEncodable_map.
  repeat (apply map_Forall_insert_2; [done|]). apply map_Forall_empty.
Qed.

Section Update.
Context {Server : Type} `{!RoundTripper Server} `{!JSONDecoder}.

(** [GetUser] is one GET and the decoding of its answer. *)
Lemma GetUser_unfold (c : Client) (id : Z) (w : World Server) :
  GetUser c id w
  = match do (getRequest c id) (Some MapShape) w with
    | (w1, Ok resp) => (w1, Ok (decodeUser resp))
    | (w1, Err e) => (w1, Err e)
    end.
Proof.
  unfold GetUser, bind at 1, lift.
  destruct (userPath_ok id) as [Hsafe Htrim].
  rewrite newRequest_ok by done. fold (getRequest c id).
  unfold bind, ret. by destruct (do _ (Some MapShape) w) as [w1 [resp|e]].
Qed.

Lemma GetUser_sent (c : Client) (id : Z) (w : World Server) :
  sent (GetUser c id w).1 = sent w ++ [getRequest c id].
Proof.
  rewrite GetUser_unfold.
  pose proof (do_sent (getRequest c id) (Some MapShape) w) as Hsent.
  by destruct (do _ (Some MapShape) w) as [w1 [resp|e]].
Qed.

(** [UpdateUser] is the fetch, the PUT of the merged payload, and the
    second fetch. *)
Lemma UpdateUser_unfold (c : Client) (id : Z) (permissions : option Z)
    (name email : option string) (enabled : option bool) (w : World Server) :
  UpdateUser c id permissions name email enabled w
  = match GetUser c id w with
    | (w1, Err e) => (w1, Err e)
    | (w1, Ok current) =>
        match do (updateRequest c id
                    (UpdateUser_payload current permissions name email enabled))
                 (Some MapShape) w1 with
        | (w2, Err e) => (w2, Err e)
        | (w2, Ok _) => GetUser c id w2
        end
    end.
Proof.
  unfold UpdateUser, bind at 1.
  destruct (GetUser c id w) as [w1 [current|e]]; [|done].
  cbv zeta. unfold bind at 1, lift.
  destruct (userPath_ok id) as [Hsafe Htrim].
  rewrite newRequest_ok; [|done..|apply UpdateUser_payload_encodable].
  fold (updateRequest c id (UpdateUser_payload current permissions name email enabled)).
  unfold bind. by destruct (do _ (Some MapShape) w1) as [w2 [resp|e]].
Qed.

(** C4. In an update call whose first fetch returns the record
    [current]: the payload holds exactly the four keys permissions,
    enabled, email and name, each with the override when there is one and
    with the value of [current] otherwise; one PUT with that payload goes
    to /users/{id}; and when the PUT succeeds, whatever its response body
    decoded to, the call returns what a new GetUser returns in the world
    after the PUT. *)
Theorem update_merges_and_refetches (c : Client) (id : Z) (permissions : option Z)
    (name email : option string) (enabled : option bool)
    (w w1 : World Server) (current : User) :
  GetUser c id w = (w1, Ok current) →
  ∃ (payload : gmap string value) (w2 : World Server)
    (outcome : result (gmap string value)),
    payload
    = <["permissions" := VInt (default (User_Permissions current) permissions)]>
        (<["enabled" := VBool (default (User_Enabled current) enabled)]>
           (<["email" := VString (default (User_Email current) email)]>
              {[ "name" := VString (default (User_Name current) name) ]}))
    ∧ do (updateRequest c id payload) (Some MapShape) w1 = (w2, outcome)
    ∧ Method (updateRequest c id payload) = "PUT"
    ∧ URL (updateRequest c id payload) = baseURL +:+ "/users/" +:+ Itoa id
    ∧ Body (updateRequest c id payload) = Some payload
    ∧ sent w2 = sent w ++ [getRequest c id; updateRequest c id payload]
    ∧ UpdateUser c id permissions name email enabled w
      = match outcome with
        | Ok _ => GetUser c id w2
        | Err e => (w2, Err e)
        end.
Proof.
  intros Hget.
  set (payload := UpdateUser_payload current permissions name email enabled).
  destruct (do (updateRequest c id payload) (Some MapShape) w1)
    as [w2 outcome] eqn:Hput.
  exists payload, w2, outcome.
  split; [apply UpdateUser_payload_keys|].
  split; [done|]. repeat split.
  - pose proof (do_sent (updateRequest c id payload) (Some MapShape) w1) as Hs2.
    pose proof (GetUser_sent c id w) as Hs1.
    rewrite Hput in Hs2. rewrite Hget in Hs1. simpl in Hs1, Hs2.
    by rewrite Hs2, Hs1, <- app_assoc.
  - rewrite UpdateUser_unfold, Hget. fold payload. rewrite Hput.
    by destruct outcome.
Qed.

(** C10. When the first fetch of an update call fails, the call returns
    that error in the world the fetch left, and the only request sent is
    the GET of the fetch: no PUT goes out. *)
Theorem update_stops_on_fetch_error (c : Client) (id : Z) (permissions : option Z)
    (name email : option string) (enabled : option bool)
    (w w1 : World Server) (e : error) :
  GetUser c id w = (w1, Err e) →
  UpdateUser c id permissions name email enabled w = (w1, Err e)
  ∧ sent w1 = sent w ++ [getRequest c id]
  ∧ Method (getRequest c id) = "GET".
Proof.
  intros Hget. split; [by rewrite UpdateUser_unfold, Hget|].
  split; [|done].
  pose proof (GetUser_sent c id w) as Hs. by rewrite Hget in Hs.
Qed.
End Update.

(** The scenario of the specification: the current record has permissions
    16, enabled, name Alice and email a@x.com; the update asks for
    permissions 32 only. *)
Lemma update_merges_and_refetches_witness :
  let w := fresh [respond 200 "200 OK" (encodeSample alice);
                  respond 200 "200 OK" (encodeSample emptyObject);
                  respond 200 "200 OK" (encodeSample alice32)] in
  let w1 := afterSend w (getRequest testClient 1)
              [respond 200 "200 OK" (encodeSample emptyObject);
               respond 200 "200 OK" (encodeSample alice32)] in
  let current := decodeUser (decodedMap alice) in
  GetUser testClient 1 w = (w1, Ok current)
  ∧ ∃ (payload : gmap string value) (w2 : World Script)
      (outcome : result (gmap string value)),
      payload = <["permissions" := VInt 32]>
                  (<["enabled" := VBool true]>
                     (<["email" := VString "a@x.com"]>
                        {[ "name" := VString "Alice" ]}))
      ∧ do (updateRequest testClient 1 payload) (Some MapShape) w1 = (w2, outcome)
      ∧ Method (updateRequest testClient 1 payload) = "PUT"
      ∧ URL (updateRequest testClient 1 payload) = "https://cloud.tenable.com/users/1"
      ∧ Body (updateRequest testClient 1 payload) = Some payload
      ∧ sent w2 = sent w ++ [getRequest testClient 1; updateRequest testClient 1 payload]
      ∧ UpdateUser testClient 1 (Some 32%Z) None None None w
        = match outcome with
          | Ok _ => GetUser testClient 1 w2
          | Err e => (w2, Err e)
          end.
Proof.
  intros w w1 current.
  assert (Hget : GetUser testClient 1 w = (w1, Ok current)) by (vm_compute; reflexivity).
  split; [exact Hget|].
  exact (update_merges_and_refetches testClient 1 (Some 32%Z) None None None
           w w1 current Hget).
Defined.

Example update_returns_refetched_record :
  User_Permissions <$>
    match (UpdateUser testClient 1 (Some 32%Z) None None None
             (fresh [respond 200 "200 OK" (encodeSample alice);
                     respond 200 "200 OK" (encodeSample emptyObject);
                     respond 200 "200 OK" (encodeSample alice32)])).2 with
    | Ok u => Some u
    | Err _ => None
    end = Some 32%Z.
Proof. vm_compute. reflexivity. Qed.

Lemma update_stops_on_fetch_error_witness :
  let w := fresh [respond 404 "404 Not Found" "gone";
                  respond 200 "200 OK" (encodeSample emptyObject)] in
  let w1 := afterSend w (getRequest testClient 9)
              [respond 200 "200 OK" (encodeSample emptyObject)] in
  GetUser testClient 9 w = (w1, Err "API error: 404 Not Found: gone")
  ∧ UpdateUser testClient 9 (Some 32%Z) None None None w
    = (w1, Err "API error: 404 Not Found: gone")
  ∧ sent w1 = sent w ++ [getRequest testClient 9]
  ∧ Method (getRequest testClient 9) = "GET".
Proof.
  intros w w1.
  assert (Hget : GetUser testClient 9 w = (w1, Err "API error: 404 Not Found: gone"))
    by (vm_compute; reflexivity).
  split; [exact Hget|].
  exact (update_stops_on_fetch_error testClient 9 (Some 32%Z) None None None w w1
           "API error: 404 Not Found: gone" Hget).
Defined.

(** ** Matching names *)






(** ** Lookups of the data sources *)

Section Lookups.
Context {Server : Type} `{!RoundTripper Server} `{!JSONDecoder} `{!UnicodeFold}.


End Lookups.


(** The id 1 selects Reader although the name admins is the name of role 2. *)
Example id_wins_over_name :
  State (roleDataSource_Read (Some testClient)
           {| roleModel_ID := StringValue "1"; roleModel_Name := StringValue "admins";
              roleModel_UUID := StringNull; roleModel_Description := StringNull |}
           rolesWorld).2
  = Some {| roleModel_ID := StringValue "1"; roleModel_Name := StringValue "Reader";
            roleModel_UUID := StringValue "role-uuid1";
            roleModel_Description := StringNull |}.
Proof. vm_compute. reflexivity. Qed.

(** An id that is no number is an error even when the name would match. *)
Example bad_id_is_not_rescued_by_name :
  Diagnostics (roleDataSource_Read (Some testClient)
                 {| roleModel_ID := StringValue "one"; roleModel_Name := StringValue "admins";
                    roleModel_UUID := StringNull; roleModel_Description := StringNull |}
                 rolesWorld).2
  = [AttributeErrorDiag "id" "Invalid Role ID" "The id attribute must be a numeric string."].
Proof. vm_compute. reflexivity. Qed.



(** The same selector finds the group and the role of that name. *)
Example group_name_ignores_case :
  State (groupDataSource_Read (Some testClient)
           {| groupModel_ID := StringNull; groupModel_Name := StringValue "Admins";
              groupModel_UUID := StringNull; groupModel_Description := StringNull |}
           (fresh [respond 200 "200 OK" (encodeSample groupList)])).2
  = Some {| groupModel_ID := StringValue "20"; groupModel_Name := StringValue "admins";
            groupModel_UUID := StringValue "group-uuid2";
            groupModel_Description := StringNull |}.
Proof. vm_compute. reflexivity. Qed.

(** A prefix or a part of a name does not match. *)
Example name_prefix_does_not_match :
  Diagnostics (roleDataSource_Read (Some testClient)
                 {| roleModel_ID := StringNull; roleModel_Name := StringValue "Admin";
                    roleModel_UUID := StringNull; roleModel_Description := StringNull |}
                 rolesWorld).2
  = [ErrorDiag "Role Not Found" "No Tenable VM role was found with name Admin."].
Proof. vm_compute. reflexivity. Qed.


(** * Further properties of the client *)

Section ClientMore.
Context {Server : Type} `{!RoundTripper Server} `{!JSONDecoder}.

Lemma DeleteUser_unfold (c : Client) (id : Z) (w : World Server) :
  DeleteUser c id w = do (requestOf c "DELETE" ("users/" +:+ Itoa id) None) None w.
Proof.
  unfold DeleteUser, bind, lift.
  destruct (userPath_ok id) as [Hsafe Htrim].
  by rewrite newRequest_ok.
Qed.

(** The three list methods have the same shape: one GET of a collection
    and the decoding of each object of the array. *)
Lemma list_unfold {A : Type} (c : Client) (path : string)
    (decode : gmap string value → A) (w : World Server) :
  validMethod "GET" = true →
  allBytes urlSafeByte path = true →
  trimLeftByte path "/" = path →
  bind (lift (newRequest c "GET" path None))
    (λ req, bind (do req (Some SliceShape))
              (λ resp, ret (decode <$> (resp : list (gmap string value))))) w
  = match do (requestOf c "GET" path None) (Some SliceShape) w with
    | (w1, Ok resp) => (w1, Ok (decode <$> (resp : list (gmap string value))))
    | (w1, Err e) => (w1, Err e)
    end.
Proof.
  intros Hm Hp Ht. unfold bind at 1, lift. rewrite newRequest_ok by done.
  unfold bind, ret. by destruct (do _ (Some SliceShape) w) as [w1 [resp|e]].
Qed.

Lemma ListUsers_unfold (c : Client) (w : World Server) :
  ListUsers c w
  = match do (requestOf c "GET" "users" None) (Some SliceShape) w with
    | (w1, Ok resp) => (w1, Ok (decodeUser <$> (resp : list (gmap string value))))
    | (w1, Err e) => (w1, Err e)
    end.
Proof. by apply list_unfold. Qed.

Lemma ListRoles_unfold (c : Client) (w : World Server) :
  ListRoles c w
  = match do (requestOf c "GET" "roles" None) (Some SliceShape) w with
    | (w1, Ok resp) => (w1, Ok (decodeRole <$> (resp : list (gmap string value))))
    | (w1, Err e) => (w1, Err e)
    end.
Proof. by apply list_unfold. Qed.

Lemma ListGroups_unfold (c : Client) (w : World Server) :
  ListGroups c w
  = match do (requestOf c "GET" "groups" None) (Some SliceShape) w with
    | (w1, Ok resp) => (w1, Ok (decodeGroup <$> (resp : list (gmap string value))))
    | (w1, Err e) => (w1, Err e)
    end.
Proof. by apply list_unfold. Qed.

(** X1. Whatever the id and whatever the server does, GetUser, DeleteUser
    and SetUserEnabled send exactly one request each: the request is always
    built (no id makes the URL invalid), it is a GET or a DELETE of
    /users/{id} without a body, or a PUT of /users/{id}/enabled whose body
    is the one key enabled. *)
Theorem id_methods_send_one_request (c : Client) (id : Z) (enabled : bool)
    (w : World Server) :
  sent (GetUser c id w).1
    = sent w ++ [{| Method := "GET"; URL := baseURL +:+ "/users/" +:+ Itoa id;
                    Header := clientHeader c; Body := None |}]
  ∧ sent (DeleteUser c id w).1
    = sent w ++ [{| Method := "DELETE"; URL := baseURL +:+ "/users/" +:+ Itoa id;
                    Header := clientHeader c; Body := None |}]
  ∧ sent (SetUserEnabled c id enabled w).1
    = sent w ++ [{| Method := "PUT";
                    URL := baseURL +:+ "/users/" +:+ Itoa id +:+ "/enabled";
                    Header := clientHeader c;
                    Body := Some {[ "enabled" := VBool enabled ]} |}].
Proof.
  split; [apply GetUser_sent|]. split.
  - rewrite DeleteUser_unfold.
    exact (do_sent (requestOf c "DELETE" ("users/" +:+ Itoa id) None) None w).
  - rewrite SetUserEnabled_unfold.
    exact (do_sent (enableRequest c id enabled) None w).
Qed.

(** X2. When the server answers the GET of a collection with a 2xx status
    and an array that decodes to the maps [ms], ListUsers, ListRoles and
    ListGroups return one record per map, in the order of the array, and
    each record keeps its map as the raw payload. *)
Theorem list_methods_keep_order (c : Client) (w : World Server) (srv : Server)
    (r : Response) (ms : list (gmap string value)) :
  is2xx (StatusCode r) = true →
  json_Decode SliceShape (RespBody r) = Ok ms →
  (RoundTrip (requestOf c "GET" "users" None) (server w) = (srv, Ok r) →
     ∃ users, ListUsers c w = (afterSend w (requestOf c "GET" "users" None) srv, Ok users)
       ∧ length users = length ms ∧ User_Raw <$> users = ms)
  ∧ (RoundTrip (requestOf c "GET" "roles" None) (server w) = (srv, Ok r) →
       ∃ roles, ListRoles c w = (afterSend w (requestOf c "GET" "roles" None) srv, Ok roles)
         ∧ length roles = length ms ∧ Role_Raw <$> roles = ms)
  ∧ (RoundTrip (requestOf c "GET" "groups" None) (server w) = (srv, Ok r) →
       ∃ groups, ListGroups c w = (afterSend w (requestOf c "GET" "groups" None) srv, Ok groups)
         ∧ length groups = length ms ∧ Group_Raw <$> groups = ms).
Proof.
  intros Hcode Hdec. split; [|split]; intros Hrt.
  - exists (decodeUser <$> ms). rewrite ListUsers_unfold, do_unfold, Hrt.
    cbv beta iota zeta. rewrite Hcode, Hdec. split; [done|].
    split; [by rewrite length_fmap|].
    rewrite <- list_fmap_compose. by rewrite list_fmap_id.
  - exists (decodeRole <$> ms). rewrite ListRoles_unfold, do_unfold, Hrt.
    cbv beta iota zeta. rewrite Hcode, Hdec. split; [done|].
    split; [by rewrite length_fmap|].
    rewrite <- list_fmap_compose. by rewrite list_fmap_id.
  - exists (decodeGroup <$> ms). rewrite ListGroups_unfold, do_unfold, Hrt.
    cbv beta iota zeta. rewrite Hcode, Hdec. split; [done|].
    split; [by rewrite length_fmap|].
    rewrite <- list_fmap_compose. by rewrite list_fmap_id.
Qed.

(** X3. DeleteUser succeeds exactly on a 2xx answer, whatever the body is
    (it is never decoded); on any other status it returns the server's
    status text and body in its error, and a failure of the transport is
    returned as it is. *)
Theorem DeleteUser_outcome (c : Client) (id : Z) (w : World Server) (srv : Server)
    (answer : result Response) :
  RoundTrip (requestOf c "DELETE" ("users/" +:+ Itoa id) None) (server w) = (srv, answer) →
  DeleteUser c id w
  = (afterSend w (requestOf c "DELETE" ("users/" +:+ Itoa id) None) srv,
     match answer with
     | Err e => Err e
     | Ok r => if is2xx (StatusCode r) then Ok tt
               else Err ("API error: " +:+ Status r +:+ ": " +:+ RespBody r)
     end).
Proof.
  intros Hrt. rewrite DeleteUser_unfold, do_unfold, Hrt. by destruct answer.
Qed.
End ClientMore.

(** * Further properties of creating and updating *)

Section CreateMore.
Context {Server : Type} `{!RoundTripper Server} `{!JSONDecoder}.
Variables (c : Client) (username password : string) (permissions : Z)
          (name email accountType : string) (enabled : bool).

Local Abbreviation createRequest :=
  (createRequest c username password permissions name email accountType).
Local Abbreviation create :=
  (CreateUser c username password permissions name email accountType enabled).

(** X4. A create call sends the POST of /users first and then at most one
    more request, which is the PUT of /users/{id}/enabled for the decoded
    id, an id other than 0: never anything else, and nothing after a POST
    that failed. *)
Theorem CreateUser_requests (w : World Server) :
  sent (create w).1 = sent w ++ [createRequest]
  ∨ ∃ (w1 : World Server) (resp : gmap string value),
      do createRequest (Some MapShape) w = (w1, Ok resp)
      ∧ intField resp "id" ≠ 0%Z
      ∧ sent (create w).1
        = sent w ++ [createRequest; enableRequest c (intField resp "id") enabled].
Proof.
  rewrite CreateUser_unfold. fold createRequest.
  pose proof (do_sent createRequest (Some MapShape) w) as Hpost.
  destruct (do createRequest (Some MapShape) w) as [w1 [resp|e]] eqn:Hdo;
    simpl in Hpost; [|by left].
  cbv zeta. simpl User_ID.
  destruct (Z.eqb_spec (intField resp "id") 0) as [Hid|Hid]; [by left|].
  destruct (eqb (User_Enabled (decodeCreatedUser resp)) enabled); [by left|].
  right. exists w1, resp. split; [done|]. split; [done|].
  simpl negb. cbv iota beta.
  pose proof (do_sent (enableRequest c (intField resp "id") enabled) None w1) as Hput.
  rewrite SetUserEnabled_unfold. fold (enableRequest c (intField resp "id") enabled).
  destruct (do (enableRequest c (intField resp "id") enabled) None w1) as [w2 [[]|e]];
    simpl in *; by rewrite Hput, Hpost, <- app_assoc.
Qed.

(** X5. Whenever a create call succeeds with a record whose ID is not 0, the
    record's enabled flag is the requested one, whatever the server reported;
    and a record with ID 0 is returned exactly as it was decoded. *)
Theorem CreateUser_reconciled (w w' : World Server) (user : User) :
  create w = (w', Ok user) →
  (User_ID user ≠ 0%Z → User_Enabled user = enabled)
  ∧ (User_ID user = 0%Z → user = decodeCreatedUser (User_Raw user)).
Proof.
  rewrite CreateUser_unfold.
  destruct (do _ (Some MapShape) w) as [w1 [resp|e]]; [|done].
  cbv zeta. simpl User_ID.
  destruct (Z.eqb_spec (intField resp "id") 0) as [Hid|Hid].
  - simpl. intros [= <- <-]. split; [done|]. done.
  - destruct (eqb_spec (User_Enabled (decodeCreatedUser resp)) enabled) as [Heq|Hne];
      simpl negb; cbv iota beta.
    + intros [= <- <-]. split; [done|]. simpl. intros Hz. by rewrite Hz in Hid.
    + destruct (SetUserEnabled _ _ _ w1) as [w2 [[]|e]]; [|done].
      intros [= <- <-]. split; [done|]. simpl. intros Hz. by rewrite Hz in Hid.
Qed.
End CreateMore.

(** X6. The payload of the POST always holds the keys username, password,
    permissions and type with the arguments as values; it holds name and
    email exactly when they are not empty; and it never holds the key
    enabled: the requested flag reaches the server only through the
    follow-up call. *)
Theorem CreateUser_payload_keys (username password : string) (permissions : Z)
    (name email accountType : string) :
  let payload := CreateUser_payload username password permissions name email accountType in
  payload !! "username" = Some (VString username)
  ∧ payload !! "password" = Some (VString password)
  ∧ payload !! "permissions" = Some (VInt permissions)
  ∧ payload !! "type" = Some (VString accountType)
  ∧ payload !! "name" = (if String.eqb name "" then None else Some (VString name))
  ∧ payload !! "email" = (if String.eqb email "" then None else Some (VString email))
  ∧ payload !! "enabled" = None
  ∧ dom payload
    = {[ "username"; "password"; "permissions"; "type" ]}
      ∪ (if String.eqb name "" then ∅ else {[ "name" ]})
      ∪ (if String.eqb email "" then ∅ else {[ "email" ]}).
Proof.
  unfold CreateUser_payload.
  destruct (String.eqb name ""), (String.eqb email "");
    cbv zeta; repeat split; try reflexivity;
    rewrite ?dom_insert_L, ?dom_singleton_L; set_solver.
Qed.

(** X7. The decoding of a create response and the decoding of GetUser and
    ListUsers agree on every map that has the key enabled; on a map without
    it they differ in the enabled flag only, which the first sets. *)
Theorem decodeCreatedUser_vs_decodeUser (m : gmap string value) :
  (is_Some (m !! "enabled") → decodeCreatedUser m = decodeUser m)
  ∧ (m !! "enabled" = None →
     decodeCreatedUser m = setEnabled (decodeUser m) true
     ∧ User_Enabled (decodeUser m) = false).
Proof.
  unfold decodeCreatedUser, decodeUser, setEnabled, boolField. simpl. split.
  - intros [v Hv]. rewrite Hv. by destruct v.
  - by intros ->.
Qed.

(** X9. A key that the records do not model changes no typed field of the
    decoded User, Role or Group, and its value stays retrievable from the
    raw payload. *)
Theorem unmodelled_keys_are_kept (m : gmap string value) (key : string) (v : value) :
  key ∉ ["id"; "uuid"; "username"; "name"; "email"; "permissions"; "enabled";
         "description"] →
  decodeUser (<[key := v]> m) = 
    {| User_ID := User_ID (decodeUser m); User_UUID := User_UUID (decodeUser m);
       User_Username := User_Username (decodeUser m);
       User_Name := User_Name (decodeUser m); User_Email := User_Email (decodeUser m);
       User_Permissions := User_Permissions (decodeUser m);
       User_Enabled := User_Enabled (decodeUser m);
       User_Raw := <[key := v]> m |}
  ∧ decodeRole (<[key := v]> m) =
    {| Role_ID := Role_ID (decodeRole m); Role_UUID := Role_UUID (decodeRole m);
       Role_Name := Role_Name (decodeRole m);
       Role_Description := Role_Description (decodeRole m);
       Role_Raw := <[key := v]> m |}
  ∧ decodeGroup (<[key := v]> m) =
    {| Group_ID := Group_ID (decodeGroup m); Group_UUID := Group_UUID (decodeGroup m);
       Group_Name := Group_Name (decodeGroup m);
       Group_Description := Group_Description (decodeGroup m);
       Group_Raw := <[key := v]> m |}
  ∧ User_Raw (decodeUser (<[key := v]> m)) !! key = Some v.
Proof.
  intros Hkey.
  assert (Hne : ∀ k, k ∈ ["id"; "uuid"; "username"; "name"; "email"; "permissions";
                         "enabled"; "description"] → key ≠ k).
  { intros k Hk ->. done. }
  unfold decodeUser, decodeRole, decodeGroup, intField, stringField, boolField.
  rewrite !lookup_insert_ne by (apply Hne; set_solver).
  repeat split. simpl. apply lookup_insert_eq.
Qed.

Section UpdateMore.
Context {Server : Type} `{!RoundTripper Server} `{!JSONDecoder}.

End UpdateMore.

(** ** Identifiers as text *)

Lemma pretty_N_char_byte (r : N) :
  (r < 10)%N → byte_of (pretty_N_char r) = (48 + r)%N.
Proof.
  intros Hr.
  assert (r = 0 ∨ r = 1 ∨ r = 2 ∨ r = 3 ∨ r = 4 ∨ r = 5 ∨ r = 6 ∨ r = 7
          ∨ r = 8 ∨ r = 9)%N as Hcases by lia.
  repeat destruct Hcases as [->|Hcases]; try reflexivity. by subst.
Qed.

(** Reading the digits that [pretty_N_go] wrote gives the number back. *)
Lemma parseDigits_pretty_N_go (x : N) (s : string) :
  parseDigits (pretty_N_go x s) 0 = parseDigits s (Z.of_N x).
Proof.
  revert s. induction (N.lt_wf_0 x) as [x _ IH]; intros s.
  destruct (decide (x = 0)%N) as [->|Hx]; [by rewrite pretty_N_go_0|].
  rewrite pretty_N_go_step by lia.
  rewrite IH by (apply N.div_lt; lia).
  cbn [parseDigits].
  assert (Hr : (x `mod` 10 < 10)%N) by (apply N.mod_lt; lia).
  rewrite (pretty_N_char_byte _ Hr).
  pose proof (N.div_mod x 10 ltac:(lia)) as Hdm.
  revert Hr Hdm. generalize (x `mod` 10)%N (x `div` 10)%N. intros r q Hr Hdm.
  assert ((48 <=? 48 + r)%N && (48 + r <=? 57)%N = true) as ->.
  { apply andb_true_iff. split; apply N.leb_le; lia. }
  f_equal. lia.
Qed.

Lemma pretty_N_go_head (x : N) (s : string) :
  (0 < x)%N →
  ∃ (d : N) (rest : string), (d < 10)%N ∧ pretty_N_go x s = String (pretty_N_char d) rest.
Proof.
  revert s. induction (N.lt_wf_0 x) as [x _ IH]; intros s Hx.
  rewrite pretty_N_go_step by done.
  destruct (decide (x `div` 10 = 0)%N) as [Hq|Hq].
  - rewrite Hq, pretty_N_go_0. exists (x `mod` 10)%N, s.
    split; [apply N.mod_lt; lia|done].
  - apply IH; [apply N.div_lt; lia|by apply N.neq_0_lt_0].
Qed.

(** On a text that starts with a digit [Atoi] reads no sign. *)
Lemma Atoi_digit_head (d : N) (rest : string) :
  (d < 10)%N →
  Atoi (String (pretty_N_char d) rest)
  = match parseDigits (String (pretty_N_char d) rest) 0 with
    | Some n => if inInt n then Some n else None
    | None => None
    end.
Proof.
  intros Hd.
  assert (d = 0 ∨ d = 1 ∨ d = 2 ∨ d = 3 ∨ d = 4 ∨ d = 5 ∨ d = 6 ∨ d = 7
          ∨ d = 8 ∨ d = 9)%N as Hcases by lia.
  repeat destruct Hcases as [->|Hcases]; try reflexivity. by subst.
Qed.

(** The decimal text of an [int] reads back as that [int]. *)
Lemma Atoi_Itoa (n : Z) : inInt n = true → Atoi (Itoa n) = Some n.
Proof.
  intros Hn. destruct n as [|p|p].
  - reflexivity.
  - unfold Itoa, pretty, pretty_Z, pretty, pretty_positive, pretty, pretty_N.
    rewrite decide_False by done.
    destruct (pretty_N_go_head (N.pos p) "" ltac:(lia)) as (d & rest & Hd & Hhead).
    pose proof (parseDigits_pretty_N_go (N.pos p) "") as Hparse.
    rewrite Hhead in *. rewrite (Atoi_digit_head d rest Hd), Hparse.
    change (parseDigits "" (Z.of_N (N.pos p))) with (Some (Z.pos p)).
    cbv iota beta. by rewrite Hn.
  - unfold Itoa, pretty, pretty_Z, pretty, pretty_positive, pretty, pretty_N.
    rewrite decide_False by done.
    destruct (pretty_N_go_head (N.pos p) "" ltac:(lia)) as (d & rest & Hd & Hhead).
    pose proof (parseDigits_pretty_N_go (N.pos p) "") as Hparse.
    rewrite Hhead in *.
    change (Atoi ("-" +:+ String (pretty_N_char d) rest))
      with (match parseDigits (String (pretty_N_char d) rest) 0 with
            | Some n => if inInt (- n) then Some (- n)%Z else None
            | None => None
            end).
    rewrite Hparse.
    change (parseDigits "" (Z.of_N (N.pos p))) with (Some (Z.pos p)).
    cbv iota beta. change (- Z.pos p)%Z with (Z.neg p). by rewrite Hn.
Qed.

(** Every number a float converts to is an [int]. *)
Lemma int_of_float64_inInt (f : spec_float) : inInt (int_of_float64 f) = true.
Proof.
  unfold int_of_float64. destruct (truncFloat f) as [z|]; [|reflexivity].
  by destruct (inInt z) eqn:Hz.
Qed.

(** * The provider *)

(** The two outcomes of [Configure], by the resolved keys. *)
Lemma Configure_resolves (getenv : string → string) (config : tenableProviderModel) :
  let access := resolveKey getenv "TENABLE_ACCESS_KEY" (config_AccessKey config) in
  let secret := resolveKey getenv "TENABLE_SECRET_KEY" (config_SecretKey config) in
  if negb (IsUnknown (config_AccessKey config))
     && negb (IsUnknown (config_SecretKey config))
     && negb (String.eqb access "") && negb (String.eqb secret "")
  then Configure getenv config
       = {| ConfigureDiagnostics := [];
            ResourceData := Some {| AccessKey := access; SecretKey := secret |};
            DataSourceData := Some {| AccessKey := access; SecretKey := secret |} |}
  else ResourceData (Configure getenv config) = None
       ∧ DataSourceData (Configure getenv config) = None
       ∧ ConfigureDiagnostics (Configure getenv config) ≠ [].
Proof.
  destruct config as [ak sk]. unfold Configure, resolveKey. simpl.
  destruct ak as [| |a], sk as [| |s]; simpl; try done;
    repeat match goal with
      | |- context [String.eqb ?x ""] => destruct (String.eqb x "")
      end; simpl; done.
Qed.

(** X11. Configure hands out a client exactly when neither key is unknown
    and both resolved keys (the configured value, or the environment
    variable when the configuration leaves the key null) are not empty; the
    client then holds the resolved keys, the same client goes to resources
    and data sources, and there is no diagnostic.  Otherwise no client is
    handed out and at least one error is reported. *)
Theorem Configure_outcome (getenv : string → string) (config : tenableProviderModel) :
  let access := resolveKey getenv "TENABLE_ACCESS_KEY" (config_AccessKey config) in
  let secret := resolveKey getenv "TENABLE_SECRET_KEY" (config_SecretKey config) in
  if negb (IsUnknown (config_AccessKey config))
     && negb (IsUnknown (config_SecretKey config))
     && negb (String.eqb access "") && negb (String.eqb secret "")
  then Configure getenv config
       = {| ConfigureDiagnostics := [];
            ResourceData := Some {| AccessKey := access; SecretKey := secret |};
            DataSourceData := Some {| AccessKey := access; SecretKey := secret |} |}
  else ResourceData (Configure getenv config) = None
       ∧ DataSourceData (Configure getenv config) = None
       ∧ ConfigureDiagnostics (Configure getenv config) ≠ [].
Proof. apply Configure_resolves. Qed.

(** X12. A key that the configuration sets to the empty text is not
    replaced by the environment variable: whatever the environment and the
    other key are, no client is handed out. *)
Theorem Configure_empty_key_hides_environment (getenv : string → string)
    (other : types_String) :
  ResourceData (Configure getenv {| config_AccessKey := StringValue "";
                                    config_SecretKey := other |}) = None
  ∧ ResourceData (Configure getenv {| config_AccessKey := other;
                                      config_SecretKey := StringValue "" |}) = None
  ∧ (IsUnknown other = false →
     missingAccessKey ∈ ConfigureDiagnostics
       (Configure getenv {| config_AccessKey := StringValue ""; config_SecretKey := other |})
     ∧ missingSecretKey ∈ ConfigureDiagnostics
         (Configure getenv {| config_AccessKey := other;
                              config_SecretKey := StringValue "" |})).
Proof.
  unfold Configure. simpl.
  split; [|split].
  - destruct other as [| |s]; simpl; try done;
      by repeat match goal with
           | |- context [String.eqb ?x ""] => destruct (String.eqb x "")
           end.
  - destruct other as [| |s]; simpl; try done;
      by repeat match goal with
           | |- context [String.eqb ?x ""] => destruct (String.eqb x "")
           end.
  - destruct other as [| |s]; simpl; try done; intros _;
      repeat match goal with
        | |- context [String.eqb ?x ""] => destruct (String.eqb x "")
        end; simpl; split; set_solver.
Qed.

(** X13. Every request built with the client that Configure hands out
    carries the resolved keys in its X-ApiKeys header, and neither key is
    empty. *)
Theorem configured_client_signs_requests (getenv : string → string)
    (config : tenableProviderModel) (client : Client) (method path : string)
    (body : option (gmap string value)) (req : Request) :
  ResourceData (Configure getenv config) = Some client →
  newRequest client method path body = Ok req →
  Header_Get (Header req) "X-ApiKeys"
  = "accessKey=" +:+ resolveKey getenv "TENABLE_ACCESS_KEY" (config_AccessKey config)
    +:+ "; secretKey="
    +:+ resolveKey getenv "TENABLE_SECRET_KEY" (config_SecretKey config) +:+ ";"
  ∧ AccessKey client ≠ "" ∧ SecretKey client ≠ "".
Proof.
  intros Hconf Hreq.
  apply newRequest_inv in Hreq as [Hhdr _]. rewrite Hhdr.
  destruct (clientHeader_values client) as [-> _]. unfold apiKeys.
  pose proof (Configure_resolves getenv config) as Hout. cbv zeta in Hout.
  destruct (negb (IsUnknown (config_AccessKey config))
            && negb (IsUnknown (config_SecretKey config))
            && negb (String.eqb (resolveKey getenv "TENABLE_ACCESS_KEY"
                                   (config_AccessKey config)) "")
            && negb (String.eqb (resolveKey getenv "TENABLE_SECRET_KEY"
                                   (config_SecretKey config)) "")) eqn:Hok.
  - rewrite Hout in Hconf. simpl in Hconf. injection Hconf as <-. simpl.
    apply andb_true_iff in Hok as [Hok Hs]. apply andb_true_iff in Hok as [_ Ha].
    apply negb_true_iff in Ha, Hs.
    split; [done|]. split.
    + by destruct (String.eqb_spec (resolveKey getenv "TENABLE_ACCESS_KEY"
                                      (config_AccessKey config)) "").
    + by destruct (String.eqb_spec (resolveKey getenv "TENABLE_SECRET_KEY"
                                      (config_SecretKey config)) "").
  - destruct Hout as [Hnone _]. by rewrite Hnone in Hconf.
Qed.

(** * The user resource *)

Lemma changedText_spec (planValue stateValue : types_String) :
  changedText planValue stateValue
  = if IsUnknown planValue then None
    else if String.eqb (ValueString planValue) (ValueString stateValue) then None
    else Some (ValueString planValue).
Proof.
  unfold changedText.
  destruct planValue as [| |p], stateValue as [| |s];
    cbn [IsUnknown IsNull ValueString negb]; try reflexivity;
    by destruct (String.eqb _ _).
Qed.

Lemma known_ValueString (v : types_String) :
  (if known v then ValueString v else "") = ValueString v.
Proof. by destruct v. Qed.

Lemma app_cons_not_self {A : Type} (l rest : list A) (x : A) : l ++ x :: rest ≠ l.
Proof.
  intros Heq. apply (f_equal length) in Heq.
  rewrite length_app in Heq. simpl in Heq. lia.
Qed.

Section ResourceClaims.
Context {Server : Type} `{!RoundTripper Server} `{!JSONDecoder}.

(** The first request of a create call is the POST. *)
Lemma CreateUser_sent_head (c : Client) (username password : string) (permissions : Z)
    (name email accountType : string) (enabled : bool) (w : World Server) :
  ∃ rest, sent (CreateUser c username password permissions name email accountType
                  enabled w).1
          = sent w ++ createRequest c username password permissions name email accountType
                      :: rest.
Proof.
  rewrite CreateUser_unfold.
  fold (createRequest c username password permissions name email accountType).
  set (post := createRequest c username password permissions name email accountType).
  pose proof (do_sent post (Some MapShape) w) as Hpost.
  destruct (do post (Some MapShape) w) as [w1 [resp|e]]; simpl in Hpost;
    [|by exists []].
  cbv zeta. destruct (negb _ && negb _); [|by exists []].
  rewrite SetUserEnabled_unfold.
  set (put := requestOf c "PUT" _ _).
  pose proof (do_sent put None w1) as Hput.
  destruct (do put None w1) as [w2 [[]|e]]; simpl in Hput;
    exists [put]; simpl; by rewrite Hput, Hpost, <- app_assoc.
Qed.

(** X14. Create sends the POST built from the plan, with the account type
    local when the plan leaves it null or unknown.  When it sets the state
    there is no diagnostic, the password of the state is null whatever the
    plan's password was, and the account type is the one that was sent;
    otherwise the state is left alone and the one diagnostic is the error
    of the client.  Create never removes the state. *)
Theorem Create_outcome (c : Client) (plan : userResourceModel) (w : World Server) :
  let out := userResource_Create c plan w in
  let accountType := if known (resource_AccountType plan)
                     then ValueString (resource_AccountType plan) else "local" in
  (∃ rest, sent out.1
           = sent w ++ createRequest c (ValueString (resource_Username plan))
                         (ValueString (resource_Password plan))
                         (ValueInt64 (resource_Permissions plan))
                         (ValueString (resource_Name plan))
                         (ValueString (resource_Email plan)) accountType :: rest)
  ∧ match ResourceState out.2 with
    | StateSet st =>
        ResourceDiagnostics out.2 = []
        ∧ resource_Password st = StringNull
        ∧ resource_AccountType st = StringValue accountType
    | StateUntouched =>
        ∃ e, ResourceDiagnostics out.2 = [AddError "Error creating Tenable VM user" e]
    | StateRemoved => False
    end.
Proof.
  cbv zeta. unfold userResource_Create. rewrite !known_ValueString. cbv zeta.
  set (enabled := if negb _ && negb _ then _ else true).
  set (accountType := if known _ then _ else "local").
  destruct (CreateUser_sent_head c (ValueString (resource_Username plan))
              (ValueString (resource_Password plan))
              (ValueInt64 (resource_Permissions plan))
              (ValueString (resource_Name plan))
              (ValueString (resource_Email plan)) accountType enabled w)
    as [rest Hsent].
  destruct (CreateUser c _ _ _ _ _ accountType enabled w) as [w1 [user|e]];
    simpl in *.
  - split; [by exists rest|]. repeat split.
    unfold accountType. by destruct (known (resource_AccountType plan)).
  - split; [by exists rest|]. by exists e.
Qed.

Lemma Read_sent (c : Client) (state : userResourceModel) (id : Z) (w : World Server) :
  Atoi (ValueString (resource_ID state)) = Some id →
  sent (userResource_Read c state w).1 = sent w ++ [getRequest c id].
Proof.
  intros Hid. unfold userResource_Read. rewrite Hid.
  pose proof (GetUser_sent c id w) as Hget.
  by destruct (GetUser c id w) as [w1 [user|e]].
Qed.

Lemma Delete_sent (c : Client) (state : userResourceModel) (id : Z) (w : World Server) :
  Atoi (ValueString (resource_ID state)) = Some id →
  sent (userResource_Delete c state w).1 = sent w ++ [deleteRequest c id].
Proof.
  intros Hid. unfold userResource_Delete. rewrite Hid, DeleteUser_unfold.
  fold (deleteRequest c id).
  pose proof (do_sent (deleteRequest c id) None w) as Hdel.
  by destruct (do (deleteRequest c id) None w) as [w1 [[]|e]].
Qed.

(** X10. The id that Create writes into the state is the decimal text of
    the created user's ID, and Read and Delete read it back as that same
    ID: each sends exactly one request, to /users/{id} for that ID
    (an [int]). *)
Theorem created_state_is_readable (c : Client) (plan st : userResourceModel)
    (w w1 : World Server) (resp : ResourceResponse) :
  userResource_Create c plan w = (w1, resp) →
  ResourceState resp = StateSet st →
  ∃ id : Z,
    resource_ID st = StringValue (Itoa id)
    ∧ (inInt id = true →
       ∀ w2 : World Server,
         sent (userResource_Read c st w2).1 = sent w2 ++ [getRequest c id]
         ∧ sent (userResource_Delete c st w2).1 = sent w2 ++ [deleteRequest c id]).
Proof.
  unfold userResource_Create. cbv zeta.
  destruct (CreateUser _ _ _ _ _ _ _ _ w) as [w' [user|e]]; intros [= <- <-];
    simpl; [|done].
  intros [= <-]. exists (User_ID user). split; [done|].
  intros Hint w2. split.
  - apply Read_sent. simpl. by apply Atoi_Itoa.
  - apply Delete_sent. simpl. by apply Atoi_Itoa.
Qed.

(** X15. When the id of the state is no decimal [int] (an empty or null id
    included), Read, Update and Delete send nothing, leave the state alone
    and report the one error Invalid User ID. *)
Theorem invalid_id_sends_nothing (c : Client) (plan state : userResourceModel)
    (w : World Server) :
  Atoi (ValueString (resource_ID state)) = None →
  let invalid :=
    {| ResourceDiagnostics :=
         [AddError "Invalid User ID"
            ("Expected numeric ID but got: " +:+ ValueString (resource_ID state))];
       ResourceState := StateUntouched |} in
  userResource_Read c state w = (w, invalid)
  ∧ userResource_Update c plan state w = (w, invalid)
  ∧ userResource_Delete c state w = (w, invalid).
Proof.
  intros Hid. unfold userResource_Read, userResource_Update, userResource_Delete.
  by rewrite Hid.
Qed.

(** X16. Whatever goes wrong with the GET of Read (the transport fails, the
    status is not 2xx, or the body does not decode), Read removes the
    resource from the state and reports a warning, not an error. *)
Theorem Read_failure_removes_state (c : Client) (state : userResourceModel) (id : Z)
    (w : World Server) (srv : Server) (answer : result Response) :
  Atoi (ValueString (resource_ID state)) = Some id →
  RoundTrip (getRequest c id) (server w) = (srv, answer) →
  match answer with
  | Err _ => True
  | Ok r => is2xx (StatusCode r) = false
            ∨ ∃ e, json_Decode MapShape (RespBody r) = Err e
  end →
  let out := userResource_Read c state w in
  out.1 = afterSend w (getRequest c id) srv
  ∧ ResourceState out.2 = StateRemoved
  ∧ HasError out.2 = false
  ∧ ∃ detail, ResourceDiagnostics out.2 = [AddWarning "Tenable VM user not found" detail].
Proof.
  intros Hid Hrt Hbad. cbv zeta. unfold userResource_Read.
  rewrite Hid, GetUser_unfold, do_unfold, Hrt. cbv beta iota zeta.
  destruct answer as [r|e]; [|simpl; eauto 6].
  destruct (is2xx (StatusCode r)) eqn:Hcode.
  - destruct Hbad as [?|[e He]]; [done|]. rewrite He. simpl. eauto 6.
  - simpl. eauto 6.
Qed.

(** X17. A successful Read keeps the id and the account type of the prior
    state, sets the password to null, and reading again from the state it
    set behaves exactly as reading from the prior state: both send the
    same request and make the same state of the same answer. *)
Theorem Read_is_idempotent (c : Client) (state state' : userResourceModel)
    (w w1 : World Server) (resp : ResourceResponse) :
  userResource_Read c state w = (w1, resp) →
  ResourceState resp = StateSet state' →
  resource_ID state' = resource_ID state
  ∧ resource_AccountType state' = resource_AccountType state
  ∧ resource_Password state' = StringNull
  ∧ ResourceDiagnostics resp = []
  ∧ ∀ w2 : World Server, userResource_Read c state' w2 = userResource_Read c state w2.
Proof.
  unfold userResource_Read at 1.
  destruct (Atoi (ValueString (resource_ID state))) as [id|] eqn:Hid;
    [|intros [= <- <-]; done].
  destruct (GetUser c id w) as [w' [user|e]]; intros [= <- <-]; [|done].
  simpl. intros [= <-]. simpl. do 4 (split; [done|]).
  intros w2. unfold userResource_Read. simpl. rewrite Hid.
  by destruct (GetUser c id w2) as [w3 [user2|e2]].
Qed.

Lemma UpdateUser_sent_head (c : Client) (id : Z) (permissions : option Z)
    (name email : option string) (enabled : option bool) (w : World Server) :
  ∃ rest, sent (UpdateUser c id permissions name email enabled w).1
          = sent w ++ getRequest c id :: rest.
Proof.
  rewrite UpdateUser_unfold.
  pose proof (GetUser_sent c id w) as Hget.
  destruct (GetUser c id w) as [w1 [current|e]]; simpl in Hget; [|by exists []].
  set (put := updateRequest c id _).
  pose proof (do_sent put (Some MapShape) w1) as Hput.
  destruct (do put (Some MapShape) w1) as [w2 [resp|e]]; simpl in Hput.
  - exists [put; getRequest c id].
    rewrite GetUser_sent, Hput, Hget. by rewrite <- !app_assoc.
  - exists [put]. simpl. by rewrite Hput, Hget, <- app_assoc.
Qed.

Lemma UpdateUser_sent_ok (c : Client) (id : Z) (permissions : option Z)
    (name email : option string) (enabled : option bool) (w w1 : World Server)
    (user : User) :
  UpdateUser c id permissions name email enabled w = (w1, Ok user) →
  ∃ payload, sent w1 = sent w ++ [getRequest c id; updateRequest c id payload;
                                  getRequest c id].
Proof.
  rewrite UpdateUser_unfold.
  pose proof (GetUser_sent c id w) as Hget.
  destruct (GetUser c id w) as [w0 [current|e]]; simpl in Hget; [|done].
  set (put := updateRequest c id _).
  pose proof (do_sent put (Some MapShape) w0) as Hput.
  destruct (do put (Some MapShape) w0) as [w2 [resp|e]]; simpl in Hput; [|done].
  intros Hlast. pose proof (GetUser_sent c id w2) as Hget2.
  rewrite Hlast in Hget2. simpl in Hget2.
  eexists. rewrite Hget2, Hput, Hget. by rewrite <- !app_assoc.
Qed.

(** The overrides that [Update] passes to [UpdateUser]. *)
Lemma Update_unfold (c : Client) (plan state : userResourceModel) (id : Z)
    (w : World Server) :
  Atoi (ValueString (resource_ID state)) = Some id →
  unchanged plan state
  ∧ userResource_Update c plan state w
    = (w, {| ResourceDiagnostics := []; ResourceState := StateUntouched |})
  ∨ ¬ unchanged plan state
    ∧ ∃ permissions name email enabled,
        userResource_Update c plan state w
        = match UpdateUser c id permissions name email enabled w with
          | (w1, Err e) =>
              (w1, {| ResourceDiagnostics := [AddError "Error updating Tenable VM user" e];
                      ResourceState := StateUntouched |})
          | (w1, Ok _) =>
              match GetUser c id w1 with
              | (w2, Err e) =>
                  (w2, {| ResourceDiagnostics :=
                            [AddError "Error reading Tenable VM user after update" e];
                          ResourceState := StateUntouched |})
              | (w2, Ok updatedUser) =>
                  (w2, {| ResourceDiagnostics := [];
                          ResourceState := StateSet
                            {| resource_ID := resource_ID state;
                               resource_Username := StringValue (User_Username updatedUser);
                               resource_Password := StringNull;
                               resource_Permissions :=
                                 Int64Value (User_Permissions updatedUser);
                               resource_Name := optionalString (User_Name updatedUser);
                               resource_Email := optionalString (User_Email updatedUser);
                               resource_AccountType := resource_AccountType state;
                               resource_Enabled :=
                                 BoolValue (User_Enabled updatedUser) |} |})
              end
          end.
Proof.
  intros Hid. unfold userResource_Update, unchanged. rewrite Hid.
  rewrite !changedText_spec. cbv zeta.
  destruct (Z.eqb_spec (ValueInt64 (resource_Permissions plan))
              (ValueInt64 (resource_Permissions state))) as [Hp|Hp];
    destruct (IsUnknown (resource_Name plan)) eqn:Hnu;
    destruct (String.eqb_spec (ValueString (resource_Name plan))
                (ValueString (resource_Name state))) as [Hn|Hn];
    destruct (IsUnknown (resource_Email plan)) eqn:Heu;
    destruct (String.eqb_spec (ValueString (resource_Email plan))
                (ValueString (resource_Email state))) as [He|He];
    destruct (BoolIsUnknown (resource_Enabled plan)) eqn:Hbu;
    destruct (eqb_spec (ValueBool (resource_Enabled plan))
                (ValueBool (resource_Enabled state))) as [Hb|Hb];
    simpl;
    first [ left; split; [tauto|reflexivity]
          | right; split; [intros (? & [?|?] & [?|?] & [?|?]); congruence
                          | eexists _, _, _, _; reflexivity] ].
Qed.

(** X18. With a valid id: when the plan asks for no change, Update sends
    nothing, reports nothing and leaves the state alone; when it asks for
    one, the GET of the user goes out first. *)
Theorem Update_without_change (c : Client) (plan state : userResourceModel) (id : Z)
    (w : World Server) :
  Atoi (ValueString (resource_ID state)) = Some id →
  (unchanged plan state →
   userResource_Update c plan state w
   = (w, {| ResourceDiagnostics := []; ResourceState := StateUntouched |}))
  ∧ (¬ unchanged plan state →
     ∃ rest, sent (userResource_Update c plan state w).1
             = sent w ++ getRequest c id :: rest).
Proof.
  intros Hid.
  destruct (Update_unfold c plan state id w Hid)
    as [[Hsame Hupd]|[Hdiff (p & n & e & b & Hupd)]].
  - split; [done|]. intros Hdiff. by destruct Hdiff.
  - split; [intros Hsame; by destruct Hdiff|]. intros _. rewrite Hupd.
    destruct (UpdateUser_sent_head c id p n e b w) as [rest Hhead].
    destruct (UpdateUser c id p n e b w) as [w1 [user|err]] eqn:Hup; simpl in Hhead.
    + pose proof (GetUser_sent c id w1) as Hget.
      destruct (GetUser c id w1) as [w2 [u2|e2]]; simpl in *;
        exists (rest ++ [getRequest c id]); by rewrite Hget, Hhead, <- app_assoc.
    + by exists rest.
Qed.

(** X19. When Update sets the state, four requests went out: the GET, the
    PUT and the GET of the client's update, and one more GET of the same
    user; the state keeps the id and the account type of the prior state
    and a null password, and there is no diagnostic. *)
Theorem Update_success_requests (c : Client) (plan state st : userResourceModel)
    (id : Z) (w w' : World Server) (resp : ResourceResponse) :
  Atoi (ValueString (resource_ID state)) = Some id →
  userResource_Update c plan state w = (w', resp) →
  ResourceState resp = StateSet st →
  (∃ payload, sent w' = sent w ++ [getRequest c id; updateRequest c id payload;
                                   getRequest c id; getRequest c id])
  ∧ resource_ID st = resource_ID state
  ∧ resource_AccountType st = resource_AccountType state
  ∧ resource_Password st = StringNull
  ∧ ResourceDiagnostics resp = [].
Proof.
  intros Hid.
  destruct (Update_unfold c plan state id w Hid)
    as [[_ ->]|[_ (p & n & e & b & ->)]]; [by intros [= <- <-]|].
  destruct (UpdateUser c id p n e b w) as [w1 [user|err]] eqn:Hup;
    [|by intros [= <- <-]].
  apply UpdateUser_sent_ok in Hup as [payload Hsent].
  pose proof (GetUser_sent c id w1) as Hget.
  destruct (GetUser c id w1) as [w2 [u2|e2]]; simpl in Hget;
    intros [= <- <-]; [|done].
  simpl. intros [= <-]. simpl. split; [|done].
  exists payload. rewrite Hget, Hsent. by rewrite <- !app_assoc.
Qed.

(** X20. With a valid id, Delete sends the one DELETE of /users/{id}; it
    removes the resource from the state exactly when the answer has a 2xx
    status, and otherwise (a 404 for a user that is already gone included)
    it leaves the state alone and reports the error of the client. *)
Theorem Delete_outcome (c : Client) (state : userResourceModel) (id : Z)
    (w : World Server) (srv : Server) (answer : result Response) :
  Atoi (ValueString (resource_ID state)) = Some id →
  RoundTrip (deleteRequest c id) (server w) = (srv, answer) →
  userResource_Delete c state w
  = (afterSend w (deleteRequest c id) srv,
     match answer with
     | Ok r =>
         if is2xx (StatusCode r)
         then {| ResourceDiagnostics := []; ResourceState := StateRemoved |}
         else {| ResourceDiagnostics :=
                   [AddError "Error deleting Tenable VM user"
                      ("API error: " +:+ Status r +:+ ": " +:+ RespBody r)];
                 ResourceState := StateUntouched |}
     | Err e =>
         {| ResourceDiagnostics := [AddError "Error deleting Tenable VM user" e];
            ResourceState := StateUntouched |}
     end).
Proof.
  intros Hid Hrt. unfold userResource_Delete.
  rewrite Hid, DeleteUser_unfold. fold (deleteRequest c id).
  rewrite do_unfold, Hrt. cbv beta iota zeta.
  destruct answer as [r|e]; [|done]. by destruct (is2xx (StatusCode r)).
Qed.
End ResourceClaims.

(** * The data sources, once more *)

Section DataSourceClaims.
Context {Server : Type} `{!RoundTripper Server} `{!JSONDecoder} `{!UnicodeFold}.

Lemma ListRoles_sent (c : Client) (w : World Server) :
  sent (ListRoles c w).1 = sent w ++ [requestOf c "GET" "roles" None].
Proof.
  rewrite ListRoles_unfold.
  pose proof (do_sent (requestOf c "GET" "roles" None) (Some SliceShape) w) as Hs.
  by destruct (do _ (Some SliceShape) w) as [w1 [resp|e]].
Qed.

Lemma ListGroups_sent (c : Client) (w : World Server) :
  sent (ListGroups c w).1 = sent w ++ [requestOf c "GET" "groups" None].
Proof.
  rewrite ListGroups_unfold.
  pose proof (do_sent (requestOf c "GET" "groups" None) (Some SliceShape) w) as Hs.
  by destruct (do _ (Some SliceShape) w) as [w1 [resp|e]].
Qed.

Lemma ListUsers_sent (c : Client) (w : World Server) :
  sent (ListUsers c w).1 = sent w ++ [requestOf c "GET" "users" None].
Proof.
  rewrite ListUsers_unfold.
  pose proof (do_sent (requestOf c "GET" "users" None) (Some SliceShape) w) as Hs.
  by destruct (do _ (Some SliceShape) w) as [w1 [resp|e]].
Qed.

Lemma readsOnly_nothing {model : Type} (w : World Server) (r : ReadResponse model) :
  match State r with Some _ => Diagnostics r = [] | None => length (Diagnostics r) ≤ 1 end →
  readsOnly w (w, r).
Proof.
  intros Hr. split; [|done]. exists []. rewrite app_nil_r.
  split; [done|]. split; [simpl; lia|constructor].
Qed.

Lemma readsOnly_one {model : Type} (w w' : World Server) (req : Request)
    (r : ReadResponse model) :
  sent w' = sent w ++ [req] → Method req = "GET" → Body req = None →
  match State r with Some _ => Diagnostics r = [] | None => length (Diagnostics r) ≤ 1 end →
  readsOnly w (w', r).
Proof.
  intros Hs Hm Hb Hr. split; [|done]. exists [req]. split; [done|].
  split; [simpl; lia|]. by repeat constructor.
Qed.

Ltac reads_nothing := apply readsOnly_nothing; simpl; first [reflexivity | lia].
Ltac reads_one H :=
  eapply readsOnly_one; [exact H | reflexivity | reflexivity
                        | simpl; first [reflexivity | lia]].

(** X22. No lookup changes anything on the server: each of the five data
    sources sends at most one request, a GET without a body, and leaves
    either a state and no diagnostic or no state and at most one
    diagnostic. *)
Theorem lookups_only_read (d : option Client) (c : Client)
    (roleConfig : roleDataSourceModel) (groupConfig : groupDataSourceModel)
    (userConfig : userDataSourceModel) (w : World Server) :
  readsOnly w (roleDataSource_Read d roleConfig w)
  ∧ readsOnly w (groupDataSource_Read d groupConfig w)
  ∧ readsOnly w (userDataSource_Read c userConfig w)
  ∧ readsOnly w (rolesDataSource_Read d w)
  ∧ readsOnly w (groupsDataSource_Read d w).
Proof.
  pose proof (λ c, ListRoles_sent c w) as Hroles.
  pose proof (λ c, ListGroups_sent c w) as Hgroups.
  pose proof (ListUsers_sent c w) as Husers.
  pose proof (λ id, GetUser_sent c id w) as Huser.
  split; [|split; [|split; [|split]]].
  - unfold roleDataSource_Read. destruct d as [c'|]; [|reads_nothing].
    specialize (Hroles c').
    destruct (isSet (roleModel_ID roleConfig)).
    + destruct (Atoi _); [|reads_nothing].
      destruct (ListRoles c' w) as [w1 [roles|e]]; simpl in Hroles;
        [destruct (find _ roles)|]; reads_one Hroles.
    + destruct (isSet (roleModel_Name roleConfig)); [|reads_nothing].
      destruct (ListRoles c' w) as [w1 [roles|e]]; simpl in Hroles;
        [destruct (find _ roles)|]; reads_one Hroles.
  - unfold groupDataSource_Read. destruct d as [c'|]; [|reads_nothing].
    specialize (Hgroups c').
    destruct (isSet (groupModel_ID groupConfig)).
    + destruct (Atoi _); [|reads_nothing].
      destruct (ListGroups c' w) as [w1 [groups|e]]; simpl in Hgroups;
        [destruct (find _ groups)|]; reads_one Hgroups.
    + destruct (isSet (groupModel_Name groupConfig)); [|reads_nothing].
      destruct (ListGroups c' w) as [w1 [groups|e]]; simpl in Hgroups;
        [destruct (find _ groups)|]; reads_one Hgroups.
  - unfold userDataSource_Read.
    destruct (isSet (userModel_ID userConfig)).
    + destruct (Atoi _) as [id|]; [|reads_nothing].
      specialize (Huser id).
      destruct (GetUser c id w) as [w1 [user|e]]; simpl in Huser; reads_one Huser.
    + destruct (isSet (userModel_Username userConfig)); [|reads_nothing].
      destruct (ListUsers c w) as [w1 [users|e]]; simpl in Husers;
        [destruct (find _ users)|]; reads_one Husers.
  - unfold rolesDataSource_Read. destruct d as [c'|]; [|reads_nothing].
    specialize (Hroles c').
    destruct (ListRoles c' w) as [w1 [roles|e]]; simpl in Hroles; reads_one Hroles.
  - unfold groupsDataSource_Read. destruct d as [c'|]; [|reads_nothing].
    specialize (Hgroups c').
    destruct (ListGroups c' w) as [w1 [groups|e]]; simpl in Hgroups; reads_one Hgroups.
Qed.

(** X23. A role or group lookup by id that sets a state sets the decimal
    text of the id it was asked for, in canonical form (a leading plus
    sign or leading zeros of the selector are gone), and the record it took
    is one of the listed records with that ID. *)
Theorem lookup_by_id_returns_that_id (idsel : types_String) (id : Z) :
  isSet idsel = true →
  Atoi (ValueString idsel) = Some id →
  (∀ (d : option Client) (name uuid descr : types_String) (w : World Server)
     (st : roleDataSourceModel),
     State (roleDataSource_Read d
              {| roleModel_ID := idsel; roleModel_Name := name;
                 roleModel_UUID := uuid; roleModel_Description := descr |} w).2 = Some st →
     roleModel_ID st = StringValue (Itoa id)
     ∧ ∃ c roles w' role, d = Some c ∧ ListRoles c w = (w', Ok roles)
         ∧ role ∈ roles ∧ Role_ID role = id ∧ st = roleState role)
  ∧ (∀ (d : option Client) (name uuid descr : types_String) (w : World Server)
       (st : groupDataSourceModel),
       State (groupDataSource_Read d
                {| groupModel_ID := idsel; groupModel_Name := name;
                   groupModel_UUID := uuid; groupModel_Description := descr |} w).2
       = Some st →
       groupModel_ID st = StringValue (Itoa id)
       ∧ ∃ c groups w' group, d = Some c ∧ ListGroups c w = (w', Ok groups)
           ∧ group ∈ groups ∧ Group_ID group = id ∧ st = groupState group).
Proof.
  intros Hset Hid. split.
  - intros d name uuid descr w st. unfold roleDataSource_Read. simpl.
    rewrite Hset, Hid. destruct d as [c|]; [|done].
    destruct (ListRoles c w) as [w' [roles|e]] eqn:Hlist; [|done].
    destruct (find _ roles) as [role|] eqn:Hfind; [|done].
    simpl. intros [= <-].
    apply find_some in Hfind as [Hin Heq]. apply Z.eqb_eq in Heq.
    split; [simpl; by rewrite Heq|].
    exists c, roles, w', role. repeat split; try done. by apply list_elem_of_In.
  - intros d name uuid descr w st. unfold groupDataSource_Read. simpl.
    rewrite Hset, Hid. destruct d as [c|]; [|done].
    destruct (ListGroups c w) as [w' [groups|e]] eqn:Hlist; [|done].
    destruct (find _ groups) as [group|] eqn:Hfind; [|done].
    simpl. intros [= <-].
    apply find_some in Hfind as [Hin Heq]. apply Z.eqb_eq in Heq.
    split; [simpl; by rewrite Heq|].
    exists c, groups, w', group. repeat split; try done. by apply list_elem_of_In.
Qed.
End DataSourceClaims.

Section ListDataSourceClaims.
Context {Server : Type} `{!RoundTripper Server} `{!JSONDecoder}.

(** X21. When the server answers the list request with a 2xx status and an
    array that decodes to the maps [ms], the roles and the groups data
    sources set a state with one entry per map, in the order of the array;
    the id of an entry is the decimal text of the decoded id, and its
    description is null exactly when the map gives no description text. *)
Theorem list_data_sources_keep_order (c : Client) (w : World Server) (srv : Server)
    (r : Response) (ms : list (gmap string value)) :
  is2xx (StatusCode r) = true →
  json_Decode SliceShape (RespBody r) = Ok ms →
  (RoundTrip (requestOf c "GET" "roles" None) (server w) = (srv, Ok r) →
   ∃ items,
     rolesDataSource_Read (Some c) w
     = (afterSend w (requestOf c "GET" "roles" None) srv, setState {| Roles := items |})
     ∧ length items = length ms
     ∧ ∀ i m, ms !! i = Some m →
         ∃ item, items !! i = Some item
           ∧ roleItem_ID item = StringValue (Itoa (intField m "id"))
           ∧ roleItem_Name item = StringValue (stringField m "name")
           ∧ (roleItem_Description item = StringNull ↔ stringField m "description" = ""))
  ∧ (RoundTrip (requestOf c "GET" "groups" None) (server w) = (srv, Ok r) →
     ∃ items,
       groupsDataSource_Read (Some c) w
       = (afterSend w (requestOf c "GET" "groups" None) srv, setState {| Groups := items |})
       ∧ length items = length ms
       ∧ ∀ i m, ms !! i = Some m →
           ∃ item, items !! i = Some item
             ∧ groupItem_ID item = StringValue (Itoa (intField m "id"))
             ∧ groupItem_Name item = StringValue (stringField m "name")
             ∧ (groupItem_Description item = StringNull
                ↔ stringField m "description" = "")).
Proof.
  intros Hcode Hdec.
  assert (Hopt : ∀ s, optionalString s = StringNull ↔ s = "").
  { intros s. unfold optionalString.
    destruct (String.eqb_spec s ""); split; done. }
  split; intros Hrt.
  - exists (roleItem <$> (decodeRole <$> ms)).
    unfold rolesDataSource_Read. rewrite ListRoles_unfold, do_unfold, Hrt.
    cbv beta iota zeta. rewrite Hcode, Hdec. split; [done|].
    split; [by rewrite !length_fmap|].
    intros i m Hm. exists (roleItem (decodeRole m)).
    rewrite !list_lookup_fmap, Hm. repeat split; apply Hopt.
  - exists (groupItem <$> (decodeGroup <$> ms)).
    unfold groupsDataSource_Read. rewrite ListGroups_unfold, do_unfold, Hrt.
    cbv beta iota zeta. rewrite Hcode, Hdec. split; [done|].
    split; [by rewrite !length_fmap|].
    intros i m Hm. exists (groupItem (decodeGroup m)).
    rewrite !list_lookup_fmap, Hm. repeat split; apply Hopt.
Qed.
End ListDataSourceClaims.

(** * The further properties on the test server *)

Lemma list_methods_keep_order_witness :
  is2xx 200 = true
  ∧ json_Decode SliceShape (encodeSample userList) = Ok (decodedMaps userList)
  ∧ ∃ users,
      ListUsers testClient usersWorld
      = (afterSend usersWorld (requestOf testClient "GET" "users" None) [], Ok users)
      ∧ length users = length (decodedMaps userList)
      ∧ User_Raw <$> users = decodedMaps userList.
Proof.
  split; [reflexivity|]. split; [vm_compute; reflexivity|].
  apply (list_methods_keep_order testClient usersWorld [] (okResponse userList)
           (decodedMaps userList)).
  - reflexivity.
  - vm_compute. reflexivity.
  - reflexivity.
Defined.

Lemma DeleteUser_outcome_witness :
  let w := fresh [Ok notFound] in
  RoundTrip (requestOf testClient "DELETE" ("users/" +:+ Itoa 9) None) (server w)
    = ([], Ok notFound)
  ∧ DeleteUser testClient 9 w
    = (afterSend w (requestOf testClient "DELETE" ("users/" +:+ Itoa 9) None) [],
       Err "API error: 404 Not Found: gone").
Proof.
  intros w. split; [reflexivity|].
  exact (DeleteUser_outcome testClient 9 w [] (Ok notFound) eq_refl).
Defined.

Lemma CreateUser_reconciled_witness :
  let w := fresh [ok created; respond 200 "200 OK" EmptyString] in
  let out := CreateUser testClient "carol" "pw" 16 "" "" "local" false w in
  let user := setEnabled (decodeCreatedUser (decodedMap created)) false in
  out = (out.1, Ok user)
  ∧ (User_ID user ≠ 0%Z → User_Enabled user = false)
  ∧ (User_ID user = 0%Z → user = decodeCreatedUser (User_Raw user)).
Proof.
  intros w out user.
  assert (Hout : out = (out.1, Ok user)) by (vm_compute; reflexivity).
  split; [exact Hout|].
  exact (CreateUser_reconciled testClient "carol" "pw" 16 "" "" "local" false
           w out.1 user Hout).
Defined.

Lemma unmodelled_keys_are_kept_witness :
  ("lastlogin" ∉ ["id"; "uuid"; "username"; "name"; "email"; "permissions"; "enabled";
                  "description"])
  ∧ User_Raw (decodeUser (<["lastlogin" := VFloat64 (float64_of_int 1700000000)]>
                            (decodedMap alice))) !! "lastlogin"
    = Some (VFloat64 (float64_of_int 1700000000))
  ∧ User_Name (decodeUser (<["lastlogin" := VFloat64 (float64_of_int 1700000000)]>
                             (decodedMap alice))) = "Alice".
Proof.
  assert (Hkey : "lastlogin" ∉ ["id"; "uuid"; "username"; "name"; "email";
                                "permissions"; "enabled"; "description"])
    by (apply (bool_decide_unpack _); vm_compute; exact I).
  split; [exact Hkey|].
  destruct (unmodelled_keys_are_kept (decodedMap alice) "lastlogin"
              (VFloat64 (float64_of_int 1700000000)) Hkey) as (Huser & _ & _ & Hraw).
  split; [exact Hraw|]. rewrite Huser. vm_compute. reflexivity.
Defined.

Lemma created_state_is_readable_witness :
  let w := fresh [ok created; respond 200 "200 OK" EmptyString] in
  let out := userResource_Create testClient carolPlan w in
  out = (out.1, out.2)
  ∧ ResourceState out.2 = StateSet carolState
  ∧ ∃ id : Z,
      resource_ID carolState = StringValue (Itoa id)
      ∧ (inInt id = true →
         ∀ w2 : World Script,
           sent (userResource_Read testClient carolState w2).1
             = sent w2 ++ [getRequest testClient id]
           ∧ sent (userResource_Delete testClient carolState w2).1
             = sent w2 ++ [deleteRequest testClient id]).
Proof.
  intros w out.
  assert (Hout : out = (out.1, out.2)) by (vm_compute; reflexivity).
  assert (Hst : ResourceState out.2 = StateSet carolState) by (vm_compute; reflexivity).
  split; [exact Hout|]. split; [exact Hst|].
  exact (created_state_is_readable testClient carolPlan carolState w out.1 out.2 Hout Hst).
Defined.

Lemma configured_client_signs_requests_witness :
  let config := {| config_AccessKey := StringNull;
                   config_SecretKey := StringValue "s3cret" |} in
  let client := {| AccessKey := "envaccess"; SecretKey := "s3cret" |} in
  ResourceData (Configure accessOnly config) = Some client
  ∧ newRequest client "GET" "users" None = Ok (requestOf client "GET" "users" None)
  ∧ Header_Get (Header (requestOf client "GET" "users" None)) "X-ApiKeys"
    = "accessKey=envaccess; secretKey=s3cret;".
Proof.
  intros config client. split; [reflexivity|]. split; [reflexivity|].
  apply (configured_client_signs_requests accessOnly config client "GET" "users" None
           (requestOf client "GET" "users" None)); reflexivity.
Defined.

Lemma invalid_id_sends_nothing_witness :
  let w := fresh [ok alice] in
  let invalid :=
    {| ResourceDiagnostics := [AddError "Invalid User ID" "Expected numeric ID but got: "];
       ResourceState := StateUntouched |} in
  Atoi (ValueString (resource_ID noIdState)) = None
  ∧ userResource_Read testClient noIdState w = (w, invalid)
  ∧ userResource_Update testClient carolPlan noIdState w = (w, invalid)
  ∧ userResource_Delete testClient noIdState w = (w, invalid).
Proof.
  intros w invalid. split; [reflexivity|].
  exact (invalid_id_sends_nothing testClient carolPlan noIdState w eq_refl).
Defined.

Lemma Read_failure_removes_state_witness :
  let w := fresh [Ok notFound] in
  let out := userResource_Read testClient carolState w in
  Atoi (ValueString (resource_ID carolState)) = Some 7%Z
  ∧ RoundTrip (getRequest testClient 7) (server w) = ([], Ok notFound)
  ∧ is2xx (StatusCode notFound) = false
  ∧ out.1 = afterSend w (getRequest testClient 7) []
  ∧ ResourceState out.2 = StateRemoved
  ∧ HasError out.2 = false
  ∧ ∃ detail, ResourceDiagnostics out.2 = [AddWarning "Tenable VM user not found" detail].
Proof.
  intros w out. split; [reflexivity|]. split; [reflexivity|]. split; [reflexivity|].
  apply (Read_failure_removes_state testClient carolState 7 w [] (Ok notFound)).
  - reflexivity.
  - reflexivity.
  - left. reflexivity.
Defined.

Lemma Read_is_idempotent_witness :
  let w := fresh [ok alice] in
  let out := userResource_Read testClient staleState w in
  out = (out.1, out.2)
  ∧ ResourceState out.2 = StateSet (aliceState 16)
  ∧ resource_ID (aliceState 16) = resource_ID staleState
  ∧ resource_AccountType (aliceState 16) = resource_AccountType staleState
  ∧ resource_Password (aliceState 16) = StringNull
  ∧ ResourceDiagnostics out.2 = []
  ∧ ∀ w2 : World Script,
      userResource_Read testClient (aliceState 16) w2
      = userResource_Read testClient staleState w2.
Proof.
  intros w out.
  assert (Hout : out = (out.1, out.2)) by (vm_compute; reflexivity).
  assert (Hst : ResourceState out.2 = StateSet (aliceState 16))
    by (vm_compute; reflexivity).
  split; [exact Hout|]. split; [exact Hst|].
  exact (Read_is_idempotent testClient staleState (aliceState 16) w out.1 out.2 Hout Hst).
Defined.

Lemma Update_without_change_witness :
  let w := fresh [ok alice] in
  Atoi (ValueString (resource_ID (aliceState 16))) = Some 1%Z
  ∧ unchanged (aliceState 16) (aliceState 16)
  ∧ userResource_Update testClient (aliceState 16) (aliceState 16) w
    = (w, {| ResourceDiagnostics := []; ResourceState := StateUntouched |}).
Proof.
  intros w.
  assert (Hsame : unchanged (aliceState 16) (aliceState 16)).
  { repeat split; try right; reflexivity. }
  split; [reflexivity|]. split; [exact Hsame|].
  exact (proj1 (Update_without_change testClient (aliceState 16) (aliceState 16) 1 w
                  eq_refl) Hsame).
Defined.

Lemma Update_success_requests_witness :
  let w := fresh [ok alice; ok emptyObject; ok alice32; ok alice32] in
  let out := userResource_Update testClient (aliceState 32) (aliceState 16) w in
  Atoi (ValueString (resource_ID (aliceState 16))) = Some 1%Z
  ∧ out = (out.1, out.2)
  ∧ ResourceState out.2 = StateSet (aliceState 32)
  ∧ (∃ payload, sent out.1
                = sent w ++ [getRequest testClient 1; updateRequest testClient 1 payload;
                             getRequest testClient 1; getRequest testClient 1])
  ∧ resource_ID (aliceState 32) = resource_ID (aliceState 16)
  ∧ resource_AccountType (aliceState 32) = resource_AccountType (aliceState 16)
  ∧ resource_Password (aliceState 32) = StringNull
  ∧ ResourceDiagnostics out.2 = [].
Proof.
  intros w out.
  assert (Hout : out = (out.1, out.2)) by (vm_compute; reflexivity).
  assert (Hst : ResourceState out.2 = StateSet (aliceState 32))
    by (vm_compute; reflexivity).
  split; [reflexivity|]. split; [exact Hout|]. split; [exact Hst|].
  exact (Update_success_requests testClient (aliceState 32) (aliceState 16)
           (aliceState 32) 1 w out.1 out.2 eq_refl Hout Hst).
Defined.

Lemma Delete_outcome_witness :
  let w := fresh [Ok notFound] in
  Atoi (ValueString (resource_ID carolState)) = Some 7%Z
  ∧ RoundTrip (deleteRequest testClient 7) (server w) = ([], Ok notFound)
  ∧ userResource_Delete testClient carolState w
    = (afterSend w (deleteRequest testClient 7) [],
       {| ResourceDiagnostics :=
            [AddError "Error deleting Tenable VM user" "API error: 404 Not Found: gone"];
          ResourceState := StateUntouched |}).
Proof.
  intros w. split; [reflexivity|]. split; [reflexivity|].
  exact (Delete_outcome testClient carolState 7 w [] (Ok notFound) eq_refl eq_refl).
Defined.

Lemma list_data_sources_keep_order_witness :
  is2xx 200 = true
  ∧ json_Decode SliceShape (encodeSample roleList) = Ok (decodedMaps roleList)
  ∧ ∃ items,
      rolesDataSource_Read (Some testClient) rolesWorld
      = (afterSend rolesWorld (requestOf testClient "GET" "roles" None) [],
         setState {| Roles := items |})
      ∧ length items = length (decodedMaps roleList)
      ∧ ∀ i m, decodedMaps roleList !! i = Some m →
          ∃ item, items !! i = Some item
            ∧ roleItem_ID item = StringValue (Itoa (intField m "id"))
            ∧ roleItem_Name item = StringValue (stringField m "name")
            ∧ (roleItem_Description item = StringNull
               ↔ stringField m "description" = "").
Proof.
  split; [reflexivity|]. split; [vm_compute; reflexivity|].
  apply (list_data_sources_keep_order testClient rolesWorld [] (okResponse roleList)
           (decodedMaps roleList)).
  - reflexivity.
  - vm_compute. reflexivity.
  - reflexivity.
Defined.

Lemma lookup_by_id_returns_that_id_witness :
  let st := {| roleModel_ID := StringValue "1"; roleModel_Name := StringValue "Reader";
               roleModel_UUID := StringValue "role-uuid1";
               roleModel_Description := StringNull |} in
  let config := {| roleModel_ID := StringValue "+01"; roleModel_Name := StringNull;
                   roleModel_UUID := StringNull; roleModel_Description := StringNull |} in
  isSet (StringValue "+01") = true
  ∧ Atoi "+01" = Some 1%Z
  ∧ State (roleDataSource_Read (Some testClient) config rolesWorld).2 = Some st
  ∧ roleModel_ID st = StringValue (Itoa 1).
Proof.
  intros st config.
  assert (Hst : State (roleDataSource_Read (Some testClient) config rolesWorld).2 = Some st)
    by (vm_compute; reflexivity).
  split; [reflexivity|]. split; [reflexivity|]. split; [exact Hst|].
  exact (proj1 (proj1 (lookup_by_id_returns_that_id (StringValue "+01") 1 eq_refl eq_refl)
                  (Some testClient) StringNull StringNull StringNull rolesWorld st Hst)).
Defined.
